(** * ipie: estimator handler (ipie/estimators/handler.py) and its tests

    A shallow embedding of [ipie/estimators/handler.py] and of the
    assertions that close [ipie/qmc/tests/test_afqmc_multi_det_batch.py].

    Python integers are [Z]; Python [str] values are byte strings
    ([String.string]); a dict iterated in insertion order is an association
    list; the files seen by [os.path.isfile] and [h5py.File] are a [gmap]
    from path to file content, and whether a file can be created under a
    path is a parameter.  Exceptions are values of [exn],
    threaded with the interpreter state through a small state/exception
    monad. *)

From Stdlib Require Import ZArith QArith Qabs Qminmax Ascii String List Lia.
From Stdlib Require Import Decimal DecimalString DecimalZ DecimalPos.
From stdpp Require Import base gmap strings list.

Local Open Scope string_scope.
Local Open Scope Z_scope.

(** ** Python string primitives *)

Module PyStr.

(** [str(i)] for a Python [int]; this is what ["%s" % i] formats. *)
Definition str (i : Z) : string := NilZero.string_of_int (Z.to_int i).

(** The characters [int()] skips around the literal of an ASCII [str]:
    tab, line feed, vertical tab, form feed, carriage return and space.
    (The separators 0x1c to 0x1f count as white space for [str.isspace]
    but not here: [int("\x1c5")] raises [ValueError].) *)
Definition is_space (c : ascii) : bool :=
  let n := nat_of_ascii c in
  ((9 <=? n)%nat && (n <=? 13)%nat) || (n =? 32)%nat.

Fixpoint lstrip (s : string) : string :=
  match s with
  | EmptyString => EmptyString
  | String c r => if is_space c then lstrip r else s
  end.

Fixpoint rstrip (s : string) : string :=
  match s with
  | EmptyString => EmptyString
  | String c r =>
      match rstrip r with
      | EmptyString => if is_space c then EmptyString else String c EmptyString
      | r' => String c r'
      end
  end.

Definition strip (s : string) : string := rstrip (lstrip s).

Definition digit_of (c : ascii) : option (uint -> uint) :=
  match c with
  | "0"%char => Some D0 | "1"%char => Some D1 | "2"%char => Some D2
  | "3"%char => Some D3 | "4"%char => Some D4 | "5"%char => Some D5
  | "6"%char => Some D6 | "7"%char => Some D7 | "8"%char => Some D8
  | "9"%char => Some D9 | _ => None
  end.

(** Decimal digits with single underscores allowed between digits
    (PEP 515); [prev] tells whether the previous character was a digit. *)
Fixpoint parse_digits (prev : bool) (s : string) : option uint :=
  match s with
  | EmptyString => if prev then Some Nil else None
  | String c r =>
      if Ascii.eqb c "_"
      then (if prev then parse_digits false r else None)
      else match digit_of c with
           | Some d => option_map d (parse_digits true r)
           | None => None
           end
  end.

(** [int(s)] on a [str] of ASCII characters: surrounding white space
    skipped, an optional sign, then base-10 digits.  [None] stands for
    [ValueError].  A [str] with characters outside ASCII is read through
    the Unicode database of the interpreter, see [int_of_str] below. *)
Definition int (s : string) : option Z :=
  match strip s with
  | String "-" r => option_map (fun d => Z.of_int (Neg d)) (parse_digits false r)
  | String "+" r => option_map (fun d => Z.of_int (Pos d)) (parse_digits false r)
  | r => option_map (fun d => Z.of_int (Pos d)) (parse_digits false r)
  end.

(** [s.split(sep)] for a one-character separator. *)
Fixpoint split (sep : ascii) (s : string) : list string :=
  match s with
  | EmptyString => [EmptyString]
  | String c r =>
      if Ascii.eqb c sep then EmptyString :: split sep r
      else match split sep r with
           | h :: t => String c h :: t
           | [] => [String c EmptyString]
           end
  end.

(** [sep in s] *)
Fixpoint contains (sep : ascii) (s : string) : bool :=
  match s with
  | EmptyString => false
  | String c r => Ascii.eqb c sep || contains sep r
  end.

Fixpoint all_chars (P : ascii -> bool) (s : string) : bool :=
  match s with
  | EmptyString => true
  | String c r => P c && all_chars P r
  end.

(** [s.isascii()]: every byte of the UTF-8 form is below 128. *)
Definition is_ascii (s : string) : bool :=
  all_chars (fun c => (nat_of_ascii c <? 128)%nat) s.

(** Neither white space nor a dot. *)
Definition is_plain (c : ascii) : bool :=
  negb (is_space c) && negb (Ascii.eqb c ".").

End PyStr.

(** ** The closing assertions of [test_afqmc_multi_det_batch.py] *)

Module TestMultiDetBatch.

(** Real parts of the columns of the table [extract_mixed_estimates]
    reads from the output file, one row per recorded block, each double
    taken as the rational it denotes. *)
Record mixed_estimates : Type := {
  WeightFactor : list Q;
  Weight : list Q;
  ENumer : list Q;
  EDenom : list Q;
  ETotal : list Q;
  E1Body : list Q;
  E2Body : list Q;
  EHybrid : list Q;
  Overlap : list Q
}.

(** [numpy.mean]; [None] is the [nan] of an empty array.  Sum and
    quotient are exact here: the rounding of the float64 arithmetic is not
    modelled. *)
Definition mean (l : list Q) : option Q :=
  match l with
  | [] => None
  | _ => Some (fold_right Qplus 0%Q l / inject_Z (Z.of_nat (length l)))%Q
  end.

(** [actual == pytest.approx(expected)] with the default tolerances,
    relative [1e-6] and absolute [1e-12], on finite numbers and in exact
    arithmetic: within rounding distance of the tolerance the verdict of
    the float64 comparison may differ. *)
Definition approx_tolerance (expected : Q) : Q :=
  Qmax ((1 # 1000000) * Qabs expected) (1 # 1000000000000).
Definition approx (actual expected : Q) : bool :=
  Qle_bool (Qabs (actual - expected)) (approx_tolerance expected).

(** [numpy.mean(a.values[:-1].real) == pytest.approx(numpy.mean(b.values[:-1].real))];
    a [nan] on either side compares unequal. *)
Definition mean_matches (a b : list Q) : bool :=
  match mean (removelast a), mean (removelast b) with
  | Some x, Some y => approx x y
  | _, _ => false
  end.

(** The nine assertions on the two output tables that close the test. *)
Definition output_assertions (data_batch data : mixed_estimates) : bool :=
  mean_matches (WeightFactor data_batch) (WeightFactor data)
  && mean_matches (Weight data_batch) (Weight data)
  && mean_matches (ENumer data_batch) (ENumer data)
  && mean_matches (EDenom data_batch) (EDenom data)
  && mean_matches (ETotal data_batch) (ETotal data)
  && mean_matches (E1Body data_batch) (E1Body data)
  && mean_matches (E2Body data_batch) (E2Body data)
  && mean_matches (EHybrid data_batch) (EHybrid data)
  && mean_matches (Overlap data_batch) (Overlap data).

(** The columns the closing assertions read, in the order of the
    assertions. *)
Definition columns (t : mixed_estimates) : list (list Q) :=
  [ WeightFactor t; Weight t; ENumer t; EDenom t; ETotal t; E1Body t;
    E2Body t; EHybrid t; Overlap t ].

(** Sample tables of three recorded blocks. *)
Definition sample_table (last : Q) : mixed_estimates :=
  {| WeightFactor := [1; 1; last]%Q;
     Weight := [25; 25; last]%Q;
     ENumer := [-50; -52; last]%Q;
     EDenom := [25; 25; last]%Q;
     ETotal := [-2; -(52 # 25); last]%Q;
     E1Body := [-3; -3; last]%Q;
     E2Body := [1; 23 # 25; last]%Q;
     EHybrid := [-2; -2; last]%Q;
     Overlap := [1 # 2; 1 # 4; last]%Q |}.

End TestMultiDetBatch.

(** ** Exceptions, outcomes and name resolution *)

Inductive exn : Type :=
| NameError (name : string)        (* name 'x' is not defined *)
| AttributeError (attr : string)   (* object has no attribute 'x' *)
| KeyError (key : string)
| IndexError
| TypeError (what : string)
| ValueError (literal : string)    (* int() on a literal it cannot read *)
| AssertionError (msg : string)
| RuntimeError (msg : string)
| OSError (path : string).         (* a file that cannot be opened or created *)

(** [OutOfFuel] is not a Python outcome: it marks a run whose [while]
    loop was cut off by the step bound of the model. *)
Inductive outcome (A : Type) : Type :=
| Ret (a : A)
| Raise (e : exn)
| OutOfFuel.
Arguments Ret {A} a.
Arguments Raise {A} e.
Arguments OutOfFuel {A}.

(** [except KeyError:] catches exactly the [KeyError] instances among the
    exceptions of the model ([NameError] derives from [Exception], not from
    [LookupError]). *)
Definition is_KeyError (e : exn) : bool :=
  match e with KeyError _ => true | _ => false end.

Section Handler.

(** Objects the handler only passes around (qmc options, system,
    Hamiltonian, trial, walker batch, per-observable option dicts). *)
Variable Obj : Type.

(** Element type of the estimator buffers (numpy complex128). *)
Variable num : Type.

Inductive value : Type :=
| VNone
| VBool (b : bool)
| VInt (z : Z)
| VStr (s : string)
| VModule (name : string)
| VClass (name : string)
| VFunction (name : string)
| VBuiltin (name : string)
| VRegistry (d : list (string * string))  (* dict: observable -> class name *)
| VInstance (cls : string)
| VOpaque (o : Obj).

Definition scope : Type := list (string * value).

Fixpoint assoc {A : Type} (k : string) (l : list (string * A)) : option A :=
  match l with
  | [] => None
  | (k', v) :: r => if String.eqb k k' then Some v else assoc k r
  end.

(** [_predefined_estimators = {'energy': EnergyEstimator}] *)
Definition _predefined_estimators : list (string * string) :=
  [("energy", "EnergyEstimator")].

(** The module namespace of [ipie/estimators/handler.py] once imported:
    the [import] statements, the module-level assignment and the two
    module-level [def]/[class] statements, in source order. *)
Definition module_globals : scope :=
  [ ("__name__", VStr "ipie.estimators.handler");
    ("__doc__", VStr "Routines and classes for estimation of observables.");
    ("print_function", VInstance "_Feature");
    ("copy", VModule "copy");
    ("os", VModule "os");
    ("time", VModule "time");
    ("warnings", VModule "warnings");
    ("h5py", VModule "h5py");
    ("numpy", VModule "numpy");
    ("scipy", VModule "scipy");
    ("EnergyEstimator", VClass "EnergyEstimator");
    ("H5EstimatorHelper", VClass "H5EstimatorHelper");
    ("get_input_value", VFunction "get_input_value");
    ("_predefined_estimators", VRegistry _predefined_estimators);
    ("EstimatorHandler", VClass "EstimatorHandler");
    ("EstimatorHelper", VFunction "EstimatorHelper") ].

(** Names of the [builtins] module (Python 3). *)
Definition builtin_names : list string :=
  [ "abs"; "all"; "any"; "ascii"; "bin"; "bool"; "breakpoint"; "bytearray";
    "bytes"; "callable"; "chr"; "classmethod"; "compile"; "complex";
    "delattr"; "dict"; "dir"; "divmod"; "enumerate"; "eval"; "exec";
    "filter"; "float"; "format"; "frozenset"; "getattr"; "globals";
    "hasattr"; "hash"; "help"; "hex"; "id"; "input"; "int"; "isinstance";
    "issubclass"; "iter"; "len"; "list"; "locals"; "map"; "max";
    "memoryview"; "min"; "next"; "object"; "oct"; "open"; "ord"; "pow";
    "print"; "property"; "range"; "repr"; "reversed"; "round"; "set";
    "setattr"; "slice"; "sorted"; "staticmethod"; "str"; "sum"; "super";
    "tuple"; "type"; "vars"; "zip"; "__import__";
    "None"; "True"; "False"; "Ellipsis"; "NotImplemented"; "__debug__";
    "BaseException"; "Exception"; "ArithmeticError"; "AssertionError";
    "AttributeError"; "BufferError"; "EOFError"; "FloatingPointError";
    "GeneratorExit"; "ImportError"; "ModuleNotFoundError"; "IndexError";
    "KeyError"; "KeyboardInterrupt"; "LookupError"; "MemoryError";
    "NameError"; "NotImplementedError"; "OSError"; "IOError";
    "OverflowError"; "RecursionError"; "ReferenceError"; "RuntimeError";
    "StopIteration"; "StopAsyncIteration"; "SyntaxError";
    "IndentationError"; "TabError"; "SystemError"; "SystemExit";
    "TypeError"; "UnboundLocalError"; "UnicodeError"; "UnicodeDecodeError";
    "UnicodeEncodeError"; "UnicodeTranslateError"; "ValueError";
    "ZeroDivisionError"; "EnvironmentError"; "FileExistsError";
    "FileNotFoundError"; "IsADirectoryError"; "NotADirectoryError";
    "PermissionError"; "TimeoutError"; "Warning"; "UserWarning";
    "DeprecationWarning"; "RuntimeWarning"; "FutureWarning" ].

Definition builtins : scope := map (fun n => (n, VBuiltin n)) builtin_names.

(** Reading a name inside a function body: local scope, enclosing function
    scopes, module globals, builtins (LEGB); [NameError] when none binds
    it. *)
Definition resolve (locals enclosing : scope) (name : string) : outcome value :=
  match assoc name (locals ++ enclosing ++ module_globals ++ builtins) with
  | Some v => Ret v
  | None => Raise (NameError name)
  end.

(** ** Objects *)

(** What the handler reads from an estimator object (an instance of a class
    of [ipie.estimators], outside this module).  [None] in a field means the
    attribute is not set on the object. *)
Record Estimator : Type := {
  e_slice : option (nat * nat);
  e_compute_estimators : option (value -> value -> value -> value -> value -> list num);
  e_post_reduce_hook : option (list num -> list num);
  e_write_frequency : option Z;
  e_print_to_stdout : option bool;
  e_shape : option (list Z)
}.

(** [ipie.estimators.utils.H5EstimatorHelper(filename, chunk_size, shape)] *)
Record H5Helper : Type := {
  h5_filename : option string;
  h5_chunk_size : value;
  h5_shape : value
}.

(** Instance attributes of an [EstimatorHandler]; [None] means the
    attribute has not been assigned.  [filename] may hold Python's [None]
    (inner [None]). *)
Record handler : Type := {
  index : option Z;
  filename : option (option string);
  basename : option string;
  estimators : option (list (string * Estimator));
  output : option H5Helper;
  buffer_size : option value;
  local_estimates : option (list num);
  global_estimates : option (list num)
}.

Definition fresh_handler : handler :=
  {| index := None; filename := None; basename := None; estimators := None;
     output := None; buffer_size := None; local_estimates := None;
     global_estimates := None |}.

(** Methods defined in the body of [class EstimatorHandler(object)]. *)
Definition handler_methods : list string :=
  [ "__init__"; "dump_metadata"; "increment_file_number"; "setup_output";
    "compute_estimators" ].

(** An HDF5 file: its top-level datasets. *)
Definition h5file : Type := gmap string string.

Inductive event : Type :=
| EvStdout (line : string)                              (* print(...) *)
| EvOpenW (path : string)                               (* h5py.File(path, "w") *)
| EvNewHelper (h : H5Helper)                            (* H5EstimatorHelper(...) *)
| EvReduce (sendbuf : list num)                         (* comm.Reduce(..., op=MPI.SUM) *)
| EvPostReduce (name : string)                          (* e.post_reduce_hook(...) *)
| EvPushToChunk (h : H5Helper) (data : list num) (dset : string)
| EvIncrement (h : H5Helper).

(** Events through which a worker touches an output file. *)
Definition is_file_event (ev : event) : bool :=
  match ev with
  | EvOpenW _ | EvNewHelper _ | EvPushToChunk _ _ _ | EvIncrement _ => true
  | EvStdout _ | EvReduce _ | EvPostReduce _ => false
  end.

Definition file_events (tr : list event) : list event :=
  List.filter is_file_event tr.

(** The state a method runs in: the files of the working directory, the
    effects performed so far (most recent last) and the receiver [self]. *)
Record state : Type := {
  fs : gmap string h5file;
  trace : list event;
  self : handler
}.

Record Comm : Type := { rank : nat }.

(** ** The state and exception monad *)

Definition St (S A : Type) : Type := S -> outcome A * S.

Definition ret {S A} (a : A) : St S A := fun s => (Ret a, s).
Definition raise {S A} (e : exn) : St S A := fun s => (Raise e, s).
Definition out_of_fuel {S A} : St S A := fun s => (OutOfFuel, s).
Definition bind {S A B} (m : St S A) (k : A -> St S B) : St S B :=
  fun s => match m s with
           | (Ret a, s') => k a s'
           | (Raise e, s') => (Raise e, s')
           | (OutOfFuel, s') => (OutOfFuel, s')
           end.
Definition lift {S A} (o : outcome A) : St S A := fun s => (o, s).

(** [try: body except KeyError: handler] *)
Definition try_except_KeyError {S A} (body : St S A) (h : exn -> St S A)
  : St S A :=
  fun s => match body s with
           | (Raise e, s') => if is_KeyError e then h e s' else (Raise e, s')
           | r => r
           end.

(** Methods of [EstimatorHandler] run on a [state]. *)
Definition M : Type -> Type := St state.

Definition get_self : M handler := fun s => (Ret (self s), s).
Definition set_self (h : handler) : M unit :=
  fun s => (Ret tt, {| fs := fs s; trace := trace s; self := h |}).
Definition emit (ev : event) : M unit :=
  fun s => (Ret tt, {| fs := fs s; trace := trace s ++ [ev]; self := self s |}).

(** Reading an attribute: [AttributeError] when it is not set. *)
Definition attr {S A} (name : string) (field : option A) : St S A :=
  match field with
  | Some a => ret a
  | None => raise (AttributeError name)
  end.
Definition getattr {A} (name : string) (proj : handler -> option A) : M A :=
  bind get_self (fun h => attr name (proj h)).

Notation "'let*' x ':=' c 'in' k" := (bind c (fun x => k))
  (at level 10, x name, c at level 200, k at level 200, only parsing).
Notation "'do' c 'in' k" := (bind c (fun _ => k))
  (at level 10, c at level 200, k at level 200, only parsing).

Definition with_index (i : Z) (h : handler) : handler :=
  {| index := Some i; filename := filename h; basename := basename h;
     estimators := estimators h; output := output h;
     buffer_size := buffer_size h; local_estimates := local_estimates h;
     global_estimates := global_estimates h |}.
Definition with_filename (f : option string) (h : handler) : handler :=
  {| index := index h; filename := Some f; basename := basename h;
     estimators := estimators h; output := output h;
     buffer_size := buffer_size h; local_estimates := local_estimates h;
     global_estimates := global_estimates h |}.
Definition with_basename (b : string) (h : handler) : handler :=
  {| index := index h; filename := filename h; basename := Some b;
     estimators := estimators h; output := output h;
     buffer_size := buffer_size h; local_estimates := local_estimates h;
     global_estimates := global_estimates h |}.
Definition with_estimators (d : list (string * Estimator)) (h : handler) : handler :=
  {| index := index h; filename := filename h; basename := basename h;
     estimators := Some d; output := output h;
     buffer_size := buffer_size h; local_estimates := local_estimates h;
     global_estimates := global_estimates h |}.
Definition with_output (o : H5Helper) (h : handler) : handler :=
  {| index := index h; filename := filename h; basename := basename h;
     estimators := estimators h; output := Some o;
     buffer_size := buffer_size h; local_estimates := local_estimates h;
     global_estimates := global_estimates h |}.
Definition with_local_estimates (b : list num) (h : handler) : handler :=
  {| index := index h; filename := filename h; basename := basename h;
     estimators := estimators h; output := output h;
     buffer_size := buffer_size h; local_estimates := Some b;
     global_estimates := global_estimates h |}.
Definition with_global_estimates (b : list num) (h : handler) : handler :=
  {| index := index h; filename := filename h; basename := basename h;
     estimators := estimators h; output := output h;
     buffer_size := buffer_size h; local_estimates := local_estimates h;
     global_estimates := Some b |}.

Definition update (f : handler -> handler) : M unit :=
  let* h := get_self in set_self (f h).

(** [d[k] = v] on an insertion-ordered dict *)
Fixpoint dict_set {A : Type} (k : string) (v : A) (d : list (string * A))
  : list (string * A) :=
  match d with
  | [] => [(k, v)]
  | (k', v') :: r =>
      if String.eqb k k' then (k, v) :: r else (k', v') :: dict_set k v r
  end.

(** A module-level name read where no local of that name exists. *)
Definition global (name : string) : M value := lift (resolve [] [] name).

(** [os.path.isfile(path)] *)
Definition isfile (path : string) : M bool :=
  do global "os" in
  fun s => (Ret (bool_decide (is_Some (fs s !! path))), s).

(** Whether a file can be created under a path: not under the empty
    name, in a directory that is missing, or where the worker may not
    write.  Directories and permissions are outside [fs], so this is a
    property of the path. *)
Variable creatable : string -> bool.

(** [with h5py.File(path, "w") as fh5: pass]: the file is created, or
    truncated when it exists, and closed again; where no file can be
    created h5py raises [OSError] (its subclass [FileNotFoundError] for a
    missing directory) and nothing changes. *)
Definition open_w (path : string) : M unit :=
  do global "h5py" in
  if creatable path then
    fun s => (Ret tt, {| fs := <[path := (∅ : h5file)]> (fs s);
                         trace := trace s ++ [EvOpenW path];
                         self := self s |})
  else raise (OSError path).

(** [bool(v)], which [not v] and [if v] go by.  An object the model does
    not look into answers through its own [__bool__] or [__len__]. *)
Variable object_truth : value -> bool.

Definition truthy (v : value) : bool :=
  match v with
  | VNone => false
  | VBool b => b
  | VInt z => negb (z =? 0)
  | VStr s => negb (String.eqb s "")
  | VRegistry d => match d with [] => false | _ :: _ => true end
  | VModule _ | VClass _ | VFunction _ | VBuiltin _ => true
  | VInstance _ | VOpaque _ => object_truth v
  end.

(** [int(s)] on a [str] with characters outside ASCII: the decimal digits
    and the white space of every script are accepted there ([int("٣")] is
    3), as the Unicode database of the interpreter lists them. *)
Variable int_unicode : string -> option Z.

(** [int(s)] on a [str]; [None] stands for [ValueError]. *)
Definition int_of_str (s : string) : option Z :=
  if PyStr.is_ascii s then PyStr.int s else int_unicode s.

(** A [str] where one is required ([os.path.isfile(None)] and
    [h5py.File(None, "w")] raise). *)
Definition as_path (f : option string) : M string :=
  match f with
  | Some p => ret p
  | None => raise (TypeError "expected str, not NoneType")
  end.

(** ** [EstimatorHandler.__init__] *)

(** The [options] dict, by the keys [__init__] reads with [options.get];
    [None] is a missing key.  The index is an int, file name and base
    name are [str], the observables a dict in insertion order; [overwrite]
    is any object, since the constructor only tests its truth. *)
Record options : Type := {
  opt_index : option Z;
  opt_filename : option string;
  opt_basename : option string;
  opt_overwrite : option value;
  opt_observables : option (list (string * value))
}.

(** The constructors of the estimator classes (not part of this module):
    class name, then [comm], [qmc], [system], [ham], [trial], [options]. *)
Variable construct :
  string -> Comm -> value -> value -> value -> value -> value -> outcome Estimator.

(** [basename + ".%s.h5" % index] *)
Definition output_name (base : string) (i : Z) : string :=
  base ++ "." ++ PyStr.str i ++ ".h5".

(** [while os.path.isfile(self.filename) and not overwrite: ...]; [fuel]
    bounds the number of times the condition is evaluated. *)
Fixpoint index_loop (fuel : nat) (overwrite : value) : M unit :=
  match fuel with
  | O => out_of_fuel
  | S fuel' =>
      let* f := getattr "filename" filename in
      let* p := as_path f in
      let* ex := isfile p in
      if ex && negb (truthy overwrite) then
        let* f := getattr "filename" filename in
        let* p := as_path f in
        let* part := lift (match nth_error (PyStr.split "." p) 1 with
                      | Some x => Ret x
                      | None => Raise IndexError
                      end) in
        let* i := lift (match int_of_str part with
                   | Some i => Ret i
                   | None => Raise (ValueError part)
                   end) in
        do update (with_index i) in
        let* i := getattr "index" index in
        do update (with_index (i + 1)) in
        let* b := getattr "basename" basename in
        let* i := getattr "index" index in
        do update (with_filename (Some (output_name b i))) in
        index_loop fuel' overwrite
      else ret tt
  end.

(** Local names of [__init__] while the loop over the observables runs. *)
Definition init_locals (qmc system hamiltonian trial : value) (verbose : bool)
    (obs : string) (obs_dict : value) : scope :=
  [ ("self", VInstance "EstimatorHandler"); ("comm", VInstance "Comm");
    ("qmc", qmc); ("system", system); ("hamiltonian", hamiltonian);
    ("trial", trial); ("options", VInstance "dict");
    ("verbose", VBool verbose); ("observables", VInstance "dict");
    ("obs", VStr obs); ("obs_dict", obs_dict) ].

(** [v[k]] *)
Definition subscript (v : value) (k : string) : outcome value :=
  match v with
  | VRegistry d =>
      match assoc k d with
      | Some c => Ret (VClass c)
      | None => Raise (KeyError k)
      end
  | _ => Raise (TypeError "object is not subscriptable")
  end.

(** [cls(comm=comm, qmc=qmc, system=system, ham=hamiltonian, trial=trial,
    options=obs_dict)] *)
Definition call_class (cls : value) (comm : Comm)
    (qmc system hamiltonian trial obs_dict : value) : outcome Estimator :=
  match cls with
  | VClass c => construct c comm qmc system hamiltonian trial obs_dict
  | _ => Raise (TypeError "object is not callable")
  end.

(** [for obs, obs_dict in observables.items(): try: ... except KeyError: ...] *)
Fixpoint build_estimators (comm : Comm) (qmc system hamiltonian trial : value)
    (verbose : bool) (items : list (string * value)) : M unit :=
  match items with
  | [] => ret tt
  | (obs, obs_dict) :: rest =>
      let locals := init_locals qmc system hamiltonian trial verbose obs obs_dict in
      do try_except_KeyError
           (let* registry := lift (resolve locals [] "predefined_estimators") in
            let* cls := lift (subscript registry obs) in
            let* e := lift (call_class cls comm qmc system hamiltonian trial obs_dict) in
            let* d := getattr "estimators" estimators in
            update (with_estimators (dict_set obs e d)))
           (fun _ => raise (RuntimeError ("unknown observable: " ++ obs))) in
      build_estimators comm qmc system hamiltonian trial verbose rest
  end.

(** [fuel] is handed to the [while] loop; nothing else in the constructor
    can run forever. *)
Definition __init__ (fuel : nat) (comm : Comm)
    (qmc system hamiltonian trial : value) (opts : options) (verbose : bool)
  : M unit :=
  do (if verbose then emit (EvStdout "# Setting up estimator object.") else ret tt) in
  do (if (rank comm =? 0)%nat then
        do update (with_index (default 0 (opt_index opts))) in
        do update (with_filename (opt_filename opts)) in
        do update (with_basename (default "options" (opt_basename opts))) in
        let* f := getattr "filename" filename in
        do (match f with
            | None =>
                let overwrite := default (VBool true) (opt_overwrite opts) in
                let* b := getattr "basename" basename in
                let* i := getattr "index" index in
                do update (with_filename (Some (output_name b i))) in
                index_loop fuel overwrite
            | Some _ => ret tt
            end) in
        let* f := getattr "filename" filename in
        let* p := as_path f in
        do open_w p in
        if verbose then
          let* f := getattr "filename" filename in
          let* p := as_path f in
          emit (EvStdout ("# Writing estimator data to " ++ p ++ "."))
        else ret tt
      else update (with_filename None)) in
  let observables :=
    default [("energy", VInstance "dict")] (opt_observables opts) in
  do update (with_estimators []) in
  do build_estimators comm qmc system hamiltonian trial verbose observables in
  if verbose then emit (EvStdout "# Finished settting up estimator object.")
  else ret tt.

(** [EstimatorHandler(comm, qmc, system, hamiltonian, trial, options,
    verbose)]: [__init__] on a new object in the working directory [files]. *)
Definition new_handler (fuel : nat) (files : gmap string h5file) (comm : Comm)
    (qmc system hamiltonian trial : value) (opts : options) (verbose : bool)
  : outcome unit * state :=
  __init__ fuel comm qmc system hamiltonian trial opts verbose
    {| fs := files; trace := []; self := fresh_handler |}.

(** ** [EstimatorHandler.increment_file_number] *)

Definition increment_file_number : M unit :=
  let* i := getattr "index" index in
  do update (with_index (i + 1)) in
  let* b := getattr "basename" basename in
  let* i := getattr "index" index in
  update (with_filename (Some (output_name b i))).

(** ** [EstimatorHandler.setup_output] *)

(** Attributes of a [dict] object that the methods below ask for. *)
Definition dict_attr (name : string) : M value :=
  if bool_decide (name ∈ ["items"; "keys"; "values"; "get"; "pop"; "update";
                           "setdefault"; "clear"; "copy"; "popitem";
                           "fromkeys"])
  then ret (VBuiltin name)
  else raise (AttributeError name).

Fixpoint setup_output_loop (items : list (string * Estimator)) : M unit :=
  match items with
  | [] => ret tt
  | (k, e) :: rest =>
      (* self.output = H5EstimatorHelper(self.filename,
           chunk_size=self.buffer_size, shape=(self.estimators.total_size,)) *)
      do global "H5EstimatorHelper" in
      let* f := getattr "filename" filename in
      let* chunk := getattr "buffer_size" buffer_size in
      do getattr "estimators" estimators in
      let* total := dict_attr "total_size" in
      let h := {| h5_filename := f; h5_chunk_size := chunk; h5_shape := total |} in
      do emit (EvNewHelper h) in
      do update (with_output h) in
      setup_output_loop rest
  end.

Definition setup_output (comm : Comm) : M unit :=
  if (rank comm =? 0)%nat then
    let* d := getattr "estimators" estimators in
    setup_output_loop d
  else ret tt.

(** ** [EstimatorHandler.compute_estimators] *)

(** The sum over all workers that [comm.Reduce(..., op=MPI.SUM)] leaves in
    the receive buffer of the root, as a function of this worker's send
    buffer. *)
Variable mpi_sum : list num -> list num.

Definition compute_locals (system hamiltonian trial walker_batch : value)
    (loop_vars : scope) : scope :=
  ([ ("self", VInstance "EstimatorHandler"); ("comm", VInstance "Comm");
    ("system", system); ("hamiltonian", hamiltonian); ("trial", trial);
    ("walker_batch", walker_batch) ] ++ loop_vars)%list.

(** [buf[start:stop] = v] on a one-dimensional array: the bounds are
    clipped to the array, a one-element [v] is broadcast, any other length
    must match the slice. *)
Definition set_slice (buf : list num) (sl : nat * nat) (v : list num)
  : outcome (list num) :=
  let start := Nat.min (fst sl) (length buf) in
  let stop := Nat.max start (Nat.min (snd sl) (length buf)) in
  match v with
  | [x] => Ret (take start buf ++ replicate (stop - start) x ++ drop stop buf)%list
  | _ =>
      if (length v =? stop - start)%nat
      then Ret (take start buf ++ v ++ drop stop buf)%list
      else Raise (ValueError "could not broadcast input array")
  end.

Definition dict_get {A : Type} (d : list (string * A)) (k : string) : M A :=
  match assoc k d with
  | Some a => ret a
  | None => raise (KeyError k)
  end.

Fixpoint local_loop (system hamiltonian trial walker_batch : value)
    (items : list (string * Estimator)) : M unit :=
  match items with
  | [] => ret tt
  | (k, e) :: rest =>
      let locals := compute_locals system hamiltonian trial walker_batch
                      [("k", VStr k); ("e", VInstance "Estimator")] in
      (* estimator_slice = self.estimators[k].slice *)
      let* d := getattr "estimators" estimators in
      let* ek := dict_get d k in
      let* estimator_slice := attr "slice" (e_slice ek) in
      (* self.local_estimates[estimator_slice] =
           e.compute_estimators(qmc, system, walker_batch, hamiltonian, trial):
         the right-hand side first, then the target *)
      let* f := attr "compute_estimators" (e_compute_estimators e) in
      let* a1 := lift (resolve locals [] "qmc") in
      let* a2 := lift (resolve locals [] "system") in
      let* a3 := lift (resolve locals [] "walker_batch") in
      let* a4 := lift (resolve locals [] "hamiltonian") in
      let* a5 := lift (resolve locals [] "trial") in
      let v := f a1 a2 a3 a4 a5 in
      let* buf := getattr "local_estimates" local_estimates in
      let* buf' := lift (set_slice buf estimator_slice v) in
      do update (with_local_estimates buf') in
      local_loop system hamiltonian trial walker_batch rest
  end.

Fixpoint output_loop (comm : Comm) (items : list (string * Estimator)) : M unit :=
  match items with
  | [] => ret tt
  | (k, e) :: rest =>
      (* e.post_reduce_hook(self.global_estimates): the array is passed by
         reference, [hook] is what the call leaves in it *)
      let* hook := attr "post_reduce_hook" (e_post_reduce_hook e) in
      let* g := getattr "global_estimates" global_estimates in
      do emit (EvPostReduce k) in
      do update (with_global_estimates (hook g)) in
      (* if comm.rank == 0: self.output.push_to_chunk(self.global_estimates,
           f"data_{e.write_frequency}"); self.output.increment() *)
      do (if (rank comm =? 0)%nat then
            let* out := getattr "output" output in
            let* g := getattr "global_estimates" global_estimates in
            let* wf := attr "write_frequency" (e_write_frequency e) in
            do emit (EvPushToChunk out g ("data_" ++ PyStr.str wf)) in
            let* out := getattr "output" output in
            emit (EvIncrement out)
          else ret tt) in
      (* if e.print_to_stdout: pass *)
      do attr "print_to_stdout" (e_print_to_stdout e) in
      output_loop comm rest
  end.

(** [self.name()] for a name that is no instance attribute: a method
    defined by the class, else [AttributeError]. *)
Definition method (name : string) : M unit :=
  if bool_decide (name ∈ handler_methods) then ret tt
  else raise (AttributeError name).

Definition compute_estimators (comm : Comm)
    (system hamiltonian trial walker_batch : value) : M unit :=
  (* for k, e in self.estimators.items(): ... *)
  let* d := getattr "estimators" estimators in
  do local_loop system hamiltonian trial walker_batch d in
  (* comm.Reduce(self.local_estimates, self.global_estimates, op=MPI.SUM):
     the root, rank 0, receives the sum *)
  let* sendbuf := getattr "local_estimates" local_estimates in
  let* recvbuf := getattr "global_estimates" global_estimates in
  do lift (resolve (compute_locals system hamiltonian trial walker_batch []) []
             "MPI") in
  do emit (EvReduce sendbuf) in
  do (if (rank comm =? 0)%nat
      then update (with_global_estimates (mpi_sum sendbuf))
      else ret tt) in
  (* for k, e in self.estimators.items(): ... *)
  let* d := getattr "estimators" estimators in
  do output_loop comm d in
  (* self.zero() *)
  method "zero".

(** ** [EstimatorHelper] *)

(** [EstimatorHelper] is introduced by [def], not [class]: a function of
    one parameter named [object] whose body binds three local functions and
    returns [None].  A [def] statement evaluates its decorators and, when
    annotations are evaluated eagerly (CPython up to 3.13 without
    [from __future__ import annotations]), its annotations. *)
Definition EstimatorHelper (eager_annotations : bool) (object : value)
  : outcome value :=
  fst ((let l0 : scope := [("object", object)] in
        (* def __init__(self): *)
        let l1 : scope := (l0 ++ [("__init__", VFunction "__init__")])%list in
        (* def push(name: str, estimator: EstimatorBase) -> None: *)
        do (if eager_annotations then
              do lift (resolve l1 [] "str") in
              do lift (resolve l1 [] "EstimatorBase") in
              ret tt
            else ret tt) in
        let l2 : scope := (l1 ++ [("push", VFunction "push")])%list in
        (* @property / def offset(name: str) -> int: *)
        do lift (resolve l2 [] "property") in
        do (if eager_annotations then
              do lift (resolve l2 [] "str") in
              do lift (resolve l2 [] "int") in
              ret tt
            else ret tt) in
        ret VNone) tt).

(** Names of the body of [EstimatorHelper], the scope enclosing its inner
    functions. *)
Definition helper_enclosing (object : value) : scope :=
  [ ("object", object); ("__init__", VFunction "__init__");
    ("push", VFunction "push"); ("offset", VInstance "property") ].

(** Items of the lists and values of the attributes an instance would
    hold: the inner [__init__] binds two dicts, a list and an int. *)
Inductive hitem : Type :=
| IShape (shape : list Z)
| IInt (z : Z).

Inductive hval : Type :=
| HEstimators (d : list (string * Estimator))
| HList (l : list hitem)
| HOffsets (d : list (string * Z))
| HInt (z : Z).

Definition helper : Type := list (string * hval).

Definition helper_init : helper :=
  [ ("_estimators", HEstimators []); ("_shapes", HList []);
    ("_offset", HOffsets []); ("_num_estim", HInt 0) ].

Definition hgetattr (name : string) : St helper hval :=
  fun h => match assoc name h with
           | Some v => (Ret v, h)
           | None => (Raise (AttributeError name), h)
           end.
Definition hsetattr (name : string) (v : hval) : St helper unit :=
  fun h => (Ret tt, dict_set name v h).

(** The body of the inner [push], run with the local scope [locals]; the
    parameters of [push] as written are [name] and [estimator]. *)
Definition push_body (locals enclosing : scope) (name : string)
    (estimator : Estimator) : St helper unit :=
  (* self._estimators[name] = estimator *)
  do lift (resolve locals enclosing "estimator") in
  do lift (resolve locals enclosing "self") in
  let* d := hgetattr "_estimators" in
  do lift (resolve locals enclosing "name") in
  do (match d with
      | HEstimators d => hsetattr "_estimators" (HEstimators (dict_set name estimator d))
      | _ => raise (TypeError "object does not support item assignment")
      end) in
  (* shape = estimator.shape *)
  let* shape := attr "shape" (e_shape estimator) in
  (* self._shapes.append(estimator.shape) *)
  let* l := hgetattr "_shapes" in
  let* shape' := attr "shape" (e_shape estimator) in
  do (match l with
      | HList l => hsetattr "_shapes" (HList (l ++ [IShape shape']))
      | _ => raise (AttributeError "append")
      end) in
  (* self._num_estim += 1 *)
  let* n := hgetattr "_num_estim" in
  do (match n with
      | HInt n => hsetattr "_num_estim" (HInt (n + 1))
      | _ => raise (TypeError "unsupported operand type(s) for +=")
      end) in
  (* prev_obs = self._offsets.items()[-1] *)
  let* o := hgetattr "_offsets" in
  let* prev_obs :=
    (match o with
     | HOffsets _ | HEstimators _ =>
         raise (TypeError "'dict_items' object is not subscriptable")
     | _ => raise (AttributeError "items")
     end : St helper string) in
  (* offset = np.prod(shape) + self._offsets[pre_obs] *)
  do lift (resolve locals enclosing "np") in
  let* o := hgetattr "_offsets" in
  let* key := lift (resolve locals enclosing "pre_obs") in
  let* prev :=
    (match o, key with
     | HOffsets d, VStr k =>
         match assoc k d with Some z => ret z | None => raise (KeyError k) end
     | HOffsets _, _ => raise (KeyError "")
     | _, _ => raise (TypeError "object is not subscriptable by this key")
     end) in
  let offset := fold_right Z.mul 1 shape + prev in
  (* self._offsets.append(offset) *)
  let* o := hgetattr "_offsets" in
  match o with
  | HList l => hsetattr "_offsets" (HList (l ++ [IInt offset]))
  | _ => raise (AttributeError "append")
  end.

Definition push (object : value) (name : string) (estimator : Estimator)
  : St helper unit :=
  push_body [("name", VStr name); ("estimator", VInstance "EstimatorBase")]
    (helper_enclosing object) name estimator.

(** The getter wrapped by [@property]: its single parameter is [name]. *)
Definition offset (object : value) (name : value) : St helper Z :=
  let locals : scope := [("name", name)] in
  (* offset = self._offsets.get(name) *)
  do lift (resolve locals (helper_enclosing object) "self") in
  let* o := hgetattr "_offsets" in
  match o, name with
  | HOffsets d, VStr k =>
      (* assert offset is not None, f"Unknown estimator name {name}" *)
      match assoc k d with
      | Some z => ret z
      | None => raise (AssertionError ("Unknown estimator name " ++ k))
      end
  | HOffsets _, _ => raise (AssertionError "Unknown estimator name")
  | _, _ => raise (AttributeError "get")
  end.

(** ** [EstimatorHandler.dump_metadata] *)

(** The exception h5py raises when an item is assigned under a name the
    file already holds ("name already exists"); its class depends on the
    h5py version. *)
Variable link_exists : exn.

(** [h5py.File(path, "a")]: read and write access to the file, which
    keeps its content when it exists and is created empty when missing;
    [OSError] where it is missing and cannot be created.  The trace keeps
    to the effects of construction, [setup_output] and
    [compute_estimators]; this one shows in [fs]. *)
Definition open_a (path : string) : M unit :=
  do global "h5py" in
  fun s => match fs s !! path with
           | Some _ => (Ret tt, s)
           | None =>
               if creatable path
               then (Ret tt, {| fs := <[path := (∅ : h5file)]> (fs s);
                                trace := trace s; self := self s |})
               else (Raise (OSError path), s)
           end.

(** [fh5[name] = data] on the open file [path]: a new dataset. *)
Definition h5_setitem (path name data : string) : M unit :=
  fun s => let content : h5file := default ∅ (fs s !! path) in
           match content !! name with
           | Some _ => (Raise link_exists, s)
           | None => (Ret tt, {| fs := <[path := <[name := data]> content]> (fs s);
                                 trace := trace s; self := self s |})
           end.

(** [json_string] is the instance attribute of that name, which no method
    of the class assigns: [None] unless set from outside. *)
Definition dump_metadata (json_string : option string) : M unit :=
  (* with h5py.File(self.filename, "a") as fh5: *)
  let* f := getattr "filename" filename in
  let* p := as_path f in
  do open_a p in
  (* fh5["metadata"] = self.json_string *)
  let* data := attr "json_string" json_string in
  h5_setitem p "metadata" data.

(** ** Callers *)

(** [n] calls of [increment_file_number] in a row. *)
Fixpoint increment_times (n : nat) : M unit :=
  match n with
  | O => ret tt
  | S n' => do increment_file_number in increment_times n'
  end.

(** The lines sent to standard output, oldest first. *)
Definition stdout_lines (tr : list event) : list string :=
  flat_map (fun ev => match ev with EvStdout line => [line] | _ => [] end) tr.

(** The lines a verbose constructor prints, by how it ends: the opening
    line, the line naming the output file once the coordinating worker has
    opened it, and the closing line when it returns. *)
Definition constructor_lines (comm : Comm) (r : outcome unit)
    (f : option (option string)) : list string :=
  let writing : list string :=
    match rank comm, r, f with
    | O, Ret _, Some (Some p) | O, Raise (NameError _), Some (Some p) =>
        ["# Writing estimator data to " ++ p ++ "."]
    | _, _, _ => []
    end in
  let finished : list string :=
    match r with
    | Ret _ => ["# Finished settting up estimator object."]
    | _ => []
    end in
  ("# Setting up estimator object." :: writing ++ finished)%list.

(** ** Vocabulary of the statements *)

(** The receiver while the loop runs: [index], [filename] and [basename]
    are set, [filename] being derived from the other two. *)
Definition loop_state (s : state) (b : string) (i : Z) : state :=
  {| fs := fs s; trace := trace s;
     self := with_filename (Some (output_name b i))
               (with_basename b (with_index i (self s))) |}.

Definition stdout_if (verbose : bool) (line : string) (s : state) : state :=
  if verbose
  then {| fs := fs s; trace := trace s ++ [EvStdout line]; self := self s |}
  else s.

(** The file events of [h5py.File(path, "w")]. *)
Definition opened (path : string) : list event :=
  if creatable path then [EvOpenW path] else [].

(** What [__init__] leaves behind on the coordinating worker once the
    output file [<b>.<k>.h5] has been chosen.  Where the file can be
    created: the outcome of the loop over the observables, the file created
    empty, and the receiver.  Where it cannot: [OSError], the files as they
    were, and the receiver without [estimators]. *)
Definition init_result (opts : options) (s : state) (k : Z) (tr : list event)
  : outcome unit * state :=
  let b := default "options" (opt_basename opts) in
  let h := with_filename (Some (output_name b k))
             (with_basename b (with_index k (self s))) in
  if creatable (output_name b k) then
    (match default [("energy", VInstance "dict")] (opt_observables opts) with
     | [] => Ret tt
     | _ :: _ => Raise (NameError "predefined_estimators")
     end,
     {| fs := <[output_name b k := ∅]> (fs s);
        trace := tr;
        self := with_estimators [] h |})
  else
    (Raise (OSError (output_name b k)),
     {| fs := fs s; trace := tr; self := h |}).

(** The same when the options name the output file [f]. *)
Definition named_result (opts : options) (s : state) (f : string)
    (tr : list event) : outcome unit * state :=
  let h := with_basename (default "options" (opt_basename opts))
             (with_filename (Some f)
                (with_index (default 0 (opt_index opts)) (self s))) in
  if creatable f then
    (match default [("energy", VInstance "dict")] (opt_observables opts) with
     | [] => Ret tt
     | _ :: _ => Raise (NameError "predefined_estimators")
     end,
     {| fs := <[f := ∅]> (fs s); trace := tr; self := with_estimators [] h |})
  else (Raise (OSError f), {| fs := fs s; trace := tr; self := h |}).

(** The ways the index loop can end. *)
Inductive loop_end : outcome unit -> Prop :=
| loop_found : loop_end (Ret tt)
| loop_bad_literal (part : string) : loop_end (Raise (ValueError part))
| loop_cut : loop_end OutOfFuel.

(** The ways [__init__] can end. *)
Inductive init_end (opts : options) : outcome unit -> Prop :=
| init_observables :
    init_end opts
      (match default [("energy", VInstance "dict")] (opt_observables opts) with
       | [] => Ret tt
       | _ :: _ => Raise (NameError "predefined_estimators")
       end)
| init_bad_literal (part : string) : init_end opts (Raise (ValueError part))
| init_no_file (path : string) : init_end opts (Raise (OSError path))
| init_cut : init_end opts OutOfFuel.

(** The exception a call of [compute_estimators] ends with, read off the
    receiver: the first name or attribute, in evaluation order, that is not
    there. *)
Definition compute_error (h : handler) : exn :=
  match estimators h with
  | None => AttributeError "estimators"
  | Some [] =>
      match local_estimates h, global_estimates h with
      | None, _ => AttributeError "local_estimates"
      | Some _, None => AttributeError "global_estimates"
      | Some _, Some _ => NameError "MPI"
      end
  | Some ((k, e) :: _) =>
      match e_slice e, e_compute_estimators e with
      | None, _ => AttributeError "slice"
      | Some _, None => AttributeError "compute_estimators"
      | Some _, Some _ => NameError "qmc"
      end
  end.

(** ** Sample inputs *)

Definition rank0 : Comm := {| rank := 0 |}.
Definition rank1 : Comm := {| rank := 1 |}.

(** [options={}], the default argument *)
Definition no_options : options :=
  {| opt_index := None; opt_filename := None; opt_basename := None;
     opt_overwrite := None; opt_observables := None |}.

(** [{"observables": {}}] *)
Definition no_observables : options :=
  {| opt_index := None; opt_filename := None; opt_basename := None;
     opt_overwrite := None; opt_observables := Some [] |}.

(** [{"observables": {"foo": {}}}] *)
Definition foo_observable : options :=
  {| opt_index := None; opt_filename := None; opt_basename := None;
     opt_overwrite := None;
     opt_observables := Some [("foo", VInstance "dict")] |}.

(** [{"basename": b, "overwrite": False, "observables": {}}] *)
Definition keep_files (b : string) : options :=
  {| opt_index := None; opt_filename := None; opt_basename := Some b;
     opt_overwrite := Some (VBool false); opt_observables := Some [] |}.

(** [{"basename": b, "overwrite": None, "observables": {}}] *)
Definition overwrite_none (b : string) : options :=
  {| opt_index := None; opt_filename := None; opt_basename := Some b;
     opt_overwrite := Some VNone; opt_observables := Some [] |}.

(** [{"basename": b, "observables": {}}] *)
Definition based (b : string) : options :=
  {| opt_index := None; opt_filename := None; opt_basename := Some b;
     opt_overwrite := None; opt_observables := Some [] |}.

(** [{"filename": f, "overwrite": False, "observables": {}}] *)
Definition named_output (f : string) : options :=
  {| opt_index := None; opt_filename := Some f; opt_basename := None;
     opt_overwrite := Some (VBool false); opt_observables := Some [] |}.

(** A working directory holding one earlier output file with metadata. *)
Definition earlier_run : gmap string h5file :=
  {[ "options.0.h5" := {[ "metadata" := "{}" ]} ]}.

Definition two_runs : gmap string h5file :=
  {[ "run.0.h5" := ∅; "run.1.h5" := ∅ ]}.

Definition dotted_run : gmap string h5file := {[ "a.5.0.h5" := ∅ ]}.

Definition named_run : gmap string h5file := {[ "my.run.0.h5" := ∅ ]}.

Definition start (files : gmap string h5file) : state :=
  {| fs := files; trace := []; self := fresh_handler |}.

(** An estimator object carrying everything [compute_estimators] reads. *)
Definition full_estimator : Estimator :=
  {| e_slice := Some (0, 3)%nat;
     e_compute_estimators := Some (fun _ _ _ _ _ => []);
     e_post_reduce_hook := Some (fun g => g);
     e_write_frequency := Some 1;
     e_print_to_stdout := Some false;
     e_shape := Some [3] |}.

(** A handler on which every attribute the method reads has been set. *)
Definition ready_handler : handler :=
  {| index := Some 0; filename := Some (Some "options.0.h5");
     basename := Some "options";
     estimators := Some [("energy", full_estimator)];
     output := Some {| h5_filename := Some "options.0.h5";
                       h5_chunk_size := VInt 1; h5_shape := VInt 3 |};
     buffer_size := Some (VInt 1);
     local_estimates := Some [];
     global_estimates := Some [] |}.

(** * Properties *)

(** ** Strings: [str], [int] and [split] *)

Example pystr_str_0 : PyStr.str 0 = "0". Proof. reflexivity. Qed.
Example pystr_str_neg : PyStr.str (-12) = "-12". Proof. reflexivity. Qed.
Example pystr_int_pad : PyStr.int "  +1_000 " = Some 1000. Proof. reflexivity. Qed.
Example pystr_int_bad1 : PyStr.int "run" = None. Proof. reflexivity. Qed.
Example pystr_int_bad2 : PyStr.int "1__0" = None. Proof. reflexivity. Qed.
Example pystr_int_bad3 : PyStr.int "" = None. Proof. reflexivity. Qed.
Example pystr_int_lead0 : PyStr.int "-007" = Some (-7). Proof. reflexivity. Qed.
Example pystr_int_tab : PyStr.int (String (ascii_of_nat 9) "5") = Some 5.
Proof. reflexivity. Qed.
Example pystr_int_separator : PyStr.int (String (ascii_of_nat 28) "5") = None.
Proof. reflexivity. Qed.
Example pystr_split_ex : PyStr.split "." "a.b..c" = ["a"; "b"; ""; "c"].
Proof. reflexivity. Qed.
Example pystr_split_nosep : PyStr.split "." "abc" = ["abc"]. Proof. reflexivity. Qed.

Lemma parse_digits_uint (d : uint) (prev : bool) :
  d <> Nil \/ prev = true ->
  PyStr.parse_digits prev (NilEmpty.string_of_uint d) = Some d.
Proof.
  revert prev; induction d; intros prev H; simpl;
    try (rewrite IHd by (right; reflexivity); reflexivity).
  destruct H as [H | ->]; [congruence | reflexivity].
Qed.

Lemma uint_plain (d : uint) :
  PyStr.all_chars PyStr.is_plain (NilEmpty.string_of_uint d) = true.
Proof. induction d; simpl; try rewrite IHd; reflexivity. Qed.

Lemma str_plain (i : Z) : PyStr.all_chars PyStr.is_plain (PyStr.str i) = true.
Proof.
  unfold PyStr.str. destruct i as [| p | p]; simpl; [reflexivity | |].
  - unfold NilZero.string_of_uint.
    destruct (Pos.to_uint p); try reflexivity; apply uint_plain.
  - unfold NilZero.string_of_uint.
    destruct (Pos.to_uint p); try reflexivity; apply uint_plain.
Qed.

Lemma plain_cons (c : ascii) (r : string) :
  PyStr.all_chars PyStr.is_plain (String c r) = true ->
  PyStr.is_space c = false /\ Ascii.eqb c "." = false /\
  PyStr.all_chars PyStr.is_plain r = true.
Proof.
  simpl. unfold PyStr.is_plain.
  destruct (PyStr.is_space c), (Ascii.eqb c "."); simpl; intros H;
    try discriminate; auto.
Qed.

Lemma rstrip_plain (s : string) :
  PyStr.all_chars PyStr.is_plain s = true -> PyStr.rstrip s = s.
Proof.
  induction s as [| c r IH]; [reflexivity |].
  intros H. apply plain_cons in H as (Hc & _ & Hr).
  simpl. rewrite (IH Hr), Hc. destruct r; reflexivity.
Qed.

Lemma strip_plain (s : string) :
  PyStr.all_chars PyStr.is_plain s = true -> PyStr.strip s = s.
Proof.
  intros H. unfold PyStr.strip.
  assert (PyStr.lstrip s = s) as ->.
  { destruct s as [| c r]; [reflexivity |].
    apply plain_cons in H as (Hc & _ & _). simpl. now rewrite Hc. }
  now apply rstrip_plain.
Qed.

Lemma split_plain (s : string) :
  PyStr.all_chars PyStr.is_plain s = true -> PyStr.split "." s = [s].
Proof.
  induction s as [| c r IH]; [reflexivity |].
  intros H. apply plain_cons in H as (_ & Hc & Hr).
  simpl. rewrite Hc, (IH Hr). reflexivity.
Qed.

Lemma split_nodot (s : string) :
  PyStr.contains "." s = false -> PyStr.split "." s = [s].
Proof.
  induction s as [| c r IH]; [reflexivity |].
  simpl. destruct (Ascii.eqb c "."); [discriminate |].
  simpl. intros H. rewrite (IH H). reflexivity.
Qed.

Lemma split_nonempty (sep : ascii) (s : string) : PyStr.split sep s <> [].
Proof.
  destruct s as [| c r]; simpl; [discriminate |].
  destruct (Ascii.eqb c sep); [discriminate |].
  destruct (PyStr.split sep r); discriminate.
Qed.

Lemma split_app_sep (sep : ascii) (a r : string) :
  PyStr.split sep (a ++ String sep r)
  = (PyStr.split sep a ++ PyStr.split sep r)%list.
Proof.
  induction a as [| c a IH]; simpl.
  - rewrite Ascii.eqb_refl. reflexivity.
  - destruct (Ascii.eqb c sep).
    + rewrite IH. reflexivity.
    + rewrite IH. pose proof (split_nonempty sep a) as Hne.
      destruct (PyStr.split sep a); [congruence | reflexivity].
Qed.

(** [int(str(i)) == i] *)
Lemma int_str (i : Z) : PyStr.int (PyStr.str i) = Some i.
Proof.
  unfold PyStr.int. rewrite (strip_plain _ (str_plain i)).
  pose proof (DecimalZ.of_to i) as Hz.
  unfold PyStr.str. destruct i as [| p | p]; [reflexivity | |].
  - pose proof (DecimalPos.Unsigned.to_uint_nonnil p) as Hn.
    simpl in *. unfold NilZero.string_of_uint.
    destruct (Pos.to_uint p) as [| d | d | d | d | d | d | d | d | d | d] eqn:E;
      [congruence | ..];
      cbn [NilEmpty.string_of_uint PyStr.parse_digits Ascii.eqb Bool.eqb
           PyStr.digit_of];
      rewrite parse_digits_uint by (right; reflexivity);
      cbn [option_map]; f_equal; exact Hz.
  - pose proof (DecimalPos.Unsigned.to_uint_nonnil p) as Hn.
    simpl in *. unfold NilZero.string_of_uint.
    destruct (Pos.to_uint p) as [| d | d | d | d | d | d | d | d | d | d] eqn:E;
      [congruence | ..];
      rewrite parse_digits_uint by (left; discriminate);
      cbn [option_map]; f_equal; exact Hz.
Qed.

(** A [str] with a character outside ASCII is read through the Unicode
    database. *)
Lemma int_of_str_unicode (s : string) :
  PyStr.is_ascii s = false -> int_of_str s = int_unicode s.
Proof. intros H. unfold int_of_str. rewrite H. reflexivity. Qed.

(** [None], [0] and the empty string are false like [False]. *)
Example truthy_false_values :
  truthy VNone = false /\ truthy (VBool false) = false
  /\ truthy (VInt 0) = false /\ truthy (VStr "") = false
  /\ truthy (VBool true) = true /\ truthy (VInt 2) = true.
Proof. repeat split. Qed.

(** ** Output file names *)

Lemma output_name_split (b : string) (i : Z) :
  PyStr.split "." (output_name b i)
  = (PyStr.split "." b ++ [PyStr.str i; "h5"])%list.
Proof.
  unfold output_name.
  change ("." +:+ PyStr.str i +:+ ".h5")
    with (String "." (PyStr.str i +:+ String "." "h5")).
  rewrite split_app_sep, split_app_sep.
  rewrite (split_plain _ (str_plain i)). reflexivity.
Qed.

(** A basename without a dot: the second component is the index. *)
Lemma output_name_part_nodot (b : string) (i : Z) :
  PyStr.contains "." b = false ->
  nth_error (PyStr.split "." (output_name b i)) 1 = Some (PyStr.str i).
Proof.
  intros H. rewrite output_name_split, (split_nodot _ H). reflexivity.
Qed.

(** A basename with a dot: the second component belongs to the basename. *)
Lemma output_name_part_dot (b p0 p1 : string) (ps : list string) (i : Z) :
  PyStr.split "." b = p0 :: p1 :: ps ->
  nth_error (PyStr.split "." (output_name b i)) 1 = Some p1.
Proof. intros H. rewrite output_name_split, H. reflexivity. Qed.

Lemma output_name_inj (b : string) (i j : Z) :
  output_name b i = output_name b j -> i = j.
Proof.
  intros H. apply (f_equal (PyStr.split ".")) in H.
  rewrite !output_name_split in H. apply app_inv_head in H.
  injection H as H. apply (f_equal PyStr.int) in H.
  rewrite !int_str in H. congruence.
Qed.

(** ** The index loop *)

Lemma str_ascii (i : Z) : PyStr.is_ascii (PyStr.str i) = true.
Proof.
  assert (forall d, PyStr.is_ascii (NilEmpty.string_of_uint d) = true) as Hd.
  { unfold PyStr.is_ascii.
    induction d; cbn [NilEmpty.string_of_uint PyStr.all_chars];
      try rewrite IHd; reflexivity. }
  unfold PyStr.str. destruct i as [| p | p]; simpl; [reflexivity | |];
    unfold NilZero.string_of_uint;
    destruct (Pos.to_uint p); try reflexivity; apply Hd.
Qed.

(** [int(str(i)) == i], through the reader the loop uses. *)
Lemma int_of_str_str (i : Z) : int_of_str (PyStr.str i) = Some i.
Proof. unfold int_of_str. rewrite str_ascii. apply int_str. Qed.

Lemma index_loop_step (fuel : nat) (ow : value) (s : state) (b : string) (i : Z) :
  index_loop (S fuel) ow (loop_state s b i)
  = if bool_decide (is_Some (fs s !! output_name b i)) && negb (truthy ow) then
      match nth_error (PyStr.split "." (output_name b i)) 1 with
      | Some part =>
          match int_of_str part with
          | Some n => index_loop fuel ow (loop_state s b (n + 1))
          | None => (Raise (ValueError part), loop_state s b i)
          end
      | None => (Raise IndexError, loop_state s b i)
      end
    else (Ret tt, loop_state s b i).
Proof.
  cbn -[nth_error PyStr.split int_of_str output_name truthy].
  destruct (bool_decide (is_Some (fs s !! output_name b i)) && negb (truthy ow));
    [| reflexivity].
  cbn -[nth_error PyStr.split int_of_str output_name truthy].
  destruct (nth_error (PyStr.split "." (output_name b i)) 1) as [part |];
    [| reflexivity].
  cbn -[nth_error PyStr.split int_of_str output_name truthy].
  destruct (int_of_str part) as [n |]; reflexivity.
Qed.

(** With a true [overwrite] the loop body never runs. *)
Lemma index_loop_overwrite (fuel : nat) (ow : value) (s : state) (b : string)
    (i : Z) :
  truthy ow = true ->
  index_loop (S fuel) ow (loop_state s b i) = (Ret tt, loop_state s b i).
Proof. intros H. rewrite index_loop_step, H, andb_false_r. reflexivity. Qed.

(** A dot-free basename: the loop walks [i], [i+1], ... to the first
    unused name. *)
Lemma index_loop_nodot (n : nat) :
  forall (ow : value) (s : state) (b : string) (i : Z) (fuel : nat),
    truthy ow = false ->
    PyStr.contains "." b = false ->
    (forall j, i <= j < i + Z.of_nat n -> is_Some (fs s !! output_name b j)) ->
    fs s !! output_name b (i + Z.of_nat n) = None ->
    (n < fuel)%nat ->
    index_loop fuel ow (loop_state s b i)
    = (Ret tt, loop_state s b (i + Z.of_nat n)).
Proof.
  induction n as [| n IH]; intros ow s b i fuel How Hb Hex Hfree Hfuel;
    destruct fuel as [| fuel]; try lia; rewrite index_loop_step, How.
  - replace (i + Z.of_nat 0) with i in * by lia.
    rewrite Hfree, bool_decide_eq_false_2 by (intros [? ?]; discriminate).
    reflexivity.
  - rewrite bool_decide_eq_true_2 by (apply Hex; lia).
    cbn [andb negb]. rewrite (output_name_part_nodot _ _ Hb), int_of_str_str.
    replace (i + Z.of_nat (S n)) with ((i + 1) + Z.of_nat n) in * by lia.
    apply IH; [assumption | assumption | intros j Hj; apply Hex; lia
              | assumption | lia].
Qed.

(** A basename with a dot whose second component [int] rejects: [int]
    raises as soon as the first candidate exists. *)
Lemma index_loop_dot_ValueError (fuel : nat) (ow : value) (s : state)
    (b p0 p1 : string) (ps : list string) (i : Z) :
  truthy ow = false ->
  PyStr.split "." b = p0 :: p1 :: ps ->
  int_of_str p1 = None ->
  is_Some (fs s !! output_name b i) ->
  index_loop (S fuel) ow (loop_state s b i)
  = (Raise (ValueError p1), loop_state s b i).
Proof.
  intros How Hb Hp Hex. rewrite index_loop_step, How.
  rewrite bool_decide_eq_true_2 by assumption. cbn [andb negb].
  rewrite (output_name_part_dot _ _ _ _ _ Hb), Hp. reflexivity.
Qed.

(** A basename with a dot whose second component reads as [n]: every pass
    sets the index to [n + 1]. *)
Lemma index_loop_dot_jump (fuel : nat) (ow : value) (s : state)
    (b p0 p1 : string) (ps : list string) (i n : Z) :
  truthy ow = false ->
  PyStr.split "." b = p0 :: p1 :: ps ->
  int_of_str p1 = Some n ->
  is_Some (fs s !! output_name b i) ->
  index_loop (S fuel) ow (loop_state s b i)
  = index_loop fuel ow (loop_state s b (n + 1)).
Proof.
  intros How Hb Hp Hex. rewrite index_loop_step, How.
  rewrite bool_decide_eq_true_2 by assumption. cbn [andb negb].
  rewrite (output_name_part_dot _ _ _ _ _ Hb), Hp. reflexivity.
Qed.

Lemma index_loop_dot_diverges (fuel : nat) (ow : value) (s : state)
    (b p0 p1 : string) (ps : list string) (n : Z) :
  truthy ow = false ->
  PyStr.split "." b = p0 :: p1 :: ps ->
  int_of_str p1 = Some n ->
  is_Some (fs s !! output_name b (n + 1)) ->
  index_loop fuel ow (loop_state s b (n + 1))
  = (OutOfFuel, loop_state s b (n + 1)).
Proof.
  intros How Hb Hp Hex. induction fuel as [| fuel IH]; [reflexivity |].
  rewrite (index_loop_dot_jump _ _ _ _ _ _ _ _ _ How Hb Hp Hex). exact IH.
Qed.

(** ** The loop over the observables *)

Lemma resolve_predefined_estimators (locals : scope) :
  assoc "predefined_estimators" locals = None ->
  resolve locals [] "predefined_estimators"
  = Raise (NameError "predefined_estimators").
Proof.
  intros H. unfold resolve.
  assert (forall l : scope,
             assoc "predefined_estimators" (locals ++ l)%list
             = assoc "predefined_estimators" l) as ->.
  { induction locals as [| [k v] r IH]; intros l; [reflexivity |].
    cbn [assoc app] in H |- *. revert H.
    destruct (String.eqb "predefined_estimators" k);
      [discriminate | intros H; now apply IH]. }
  reflexivity.
Qed.

(** The registry is looked up under a name the module never binds, so the
    first observable, whatever its name, ends the loop with [NameError]. *)
Lemma build_estimators_eq (comm : Comm) (qmc system hamiltonian trial : value)
    (verbose : bool) (items : list (string * value)) (s : state) :
  build_estimators comm qmc system hamiltonian trial verbose items s
  = match items with
    | [] => (Ret tt, s)
    | _ :: _ => (Raise (NameError "predefined_estimators"), s)
    end.
Proof.
  destruct items as [| [obs obs_dict] rest]; [reflexivity |].
  cbn [build_estimators]. unfold bind at 1, try_except_KeyError.
  unfold bind at 1, lift at 1.
  rewrite resolve_predefined_estimators by reflexivity. reflexivity.
Qed.

(** ** [__init__] on the coordinating worker *)

Ltac run_init H :=
  unfold bind, update, getattr, attr, get_self, set_self, ret, raise, lift,
    emit, as_path, open_w, global;
  unfold with_filename, with_basename, with_index, with_estimators in *;
  cbn -[index_loop output_name build_estimators] in H |- *.

Lemma init_rank0_loop_ok (fuel : nat) (comm : Comm)
    (qmc system hamiltonian trial : value) (opts : options) (verbose : bool)
    (s : state) (k : Z) :
  let b := default "options" (opt_basename opts) in
  let s0 := stdout_if verbose "# Setting up estimator object." s in
  rank comm = 0%nat ->
  opt_filename opts = None ->
  index_loop fuel (default (VBool true) (opt_overwrite opts))
    (loop_state s0 b (default 0 (opt_index opts)))
  = (Ret tt, loop_state s0 b k) ->
  exists tr,
    __init__ fuel comm qmc system hamiltonian trial opts verbose s
    = init_result opts s k tr
    /\ file_events tr = (file_events (trace s) ++ opened (output_name b k))%list.
Proof.
  intros b s0 Hrank Hfile Hloop. subst b s0.
  unfold __init__, init_result, opened. rewrite Hrank, Hfile.
  unfold stdout_if, loop_state in Hloop.
  destruct verbose; run_init Hloop; rewrite Hloop;
    cbn -[index_loop output_name build_estimators];
    destruct (creatable (output_name _ k));
    unfold raise, ret; cbn -[index_loop output_name build_estimators];
    rewrite ?build_estimators_eq;
    try destruct (default [("energy", VInstance "dict")] (opt_observables opts));
    (eexists; split; [reflexivity |]);
    unfold file_events; cbn -[output_name]; rewrite ?List.filter_app;
    cbn -[output_name]; rewrite ?app_nil_r; reflexivity.
Qed.

Lemma init_rank0_loop_stops (fuel : nat) (comm : Comm)
    (qmc system hamiltonian trial : value) (opts : options) (verbose : bool)
    (s s1 : state) (r : outcome unit) :
  let b := default "options" (opt_basename opts) in
  let s0 := stdout_if verbose "# Setting up estimator object." s in
  rank comm = 0%nat ->
  opt_filename opts = None ->
  index_loop fuel (default (VBool true) (opt_overwrite opts))
    (loop_state s0 b (default 0 (opt_index opts)))
  = (r, s1) ->
  r <> Ret tt ->
  __init__ fuel comm qmc system hamiltonian trial opts verbose s = (r, s1).
Proof.
  intros b s0 Hrank Hfile Hloop Hr. subst b s0.
  unfold __init__. rewrite Hrank, Hfile.
  unfold stdout_if, loop_state in Hloop.
  destruct verbose; run_init Hloop; rewrite Hloop;
    destruct r as [[] | e |]; congruence.
Qed.

(** A working directory holds finitely many files, so from any index on
    some name [<b>.<j>.h5] is unused, and there is a first such [j]. *)
Lemma first_free_index_aux (b : string) (files : gmap string h5file) (m : nat) :
  forall (X : gset string) (i : Z),
    (size X <= m)%nat ->
    (forall j, i <= j -> is_Some (files !! output_name b j) ->
               output_name b j ∈ X) ->
    exists n : nat,
      (forall j, i <= j < i + Z.of_nat n -> is_Some (files !! output_name b j))
      /\ files !! output_name b (i + Z.of_nat n) = None.
Proof.
  induction m as [| m IH]; intros X i Hsize Hin.
  - exists 0%nat. split; [intros j Hj; lia |].
    replace (i + Z.of_nat 0) with i by lia.
    destruct (files !! output_name b i) eqn:E; [| reflexivity].
    assert (output_name b i ∈ X) as Hx by (apply Hin; [lia | eauto]).
    assert (size X = 0%nat) as Hz by lia.
    apply size_empty_inv in Hz. set_solver.
  - destruct (files !! output_name b i) eqn:E.
    + assert (output_name b i ∈ X) as Hx by (apply Hin; [lia | eauto]).
      destruct (IH (X ∖ {[output_name b i]}) (i + 1)) as (n & Hn & Hfree).
      * assert (size (X ∖ {[output_name b i]}) = (size X - 1)%nat) as ->.
        { rewrite size_difference by set_solver.
          rewrite size_singleton. reflexivity. }
        assert (size X <> 0%nat).
        { intros Hz. apply size_empty_inv in Hz. set_solver. }
        lia.
      * intros j Hj Hsome. apply elem_of_difference. split.
        -- apply Hin; [lia | assumption].
        -- rewrite elem_of_singleton. intros Heq.
           apply output_name_inj in Heq. lia.
      * exists (S n). split.
        -- intros j Hj. destruct (decide (j = i)) as [-> | Hne];
             [eauto | apply Hn; lia].
        -- replace (i + Z.of_nat (S n)) with (i + 1 + Z.of_nat n) by lia.
           exact Hfree.
    + exists 0%nat. split; [intros j Hj; lia |].
      replace (i + Z.of_nat 0) with i by lia. exact E.
Qed.

Lemma first_free_index (b : string) (files : gmap string h5file) (i : Z) :
  exists n : nat,
    (forall j, i <= j < i + Z.of_nat n -> is_Some (files !! output_name b j))
    /\ files !! output_name b (i + Z.of_nat n) = None.
Proof.
  apply (first_free_index_aux b files (size (dom files)) (dom files));
    [lia |].
  intros j _ H. now apply elem_of_dom.
Qed.

Lemma init_rank0_nodot (fuel : nat) (comm : Comm)
    (qmc system hamiltonian trial : value) (opts : options) (verbose : bool)
    (s : state) (n : nat) :
  let b := default "options" (opt_basename opts) in
  let i0 := default 0 (opt_index opts) in
  rank comm = 0%nat ->
  opt_filename opts = None ->
  truthy (default (VBool true) (opt_overwrite opts)) = false ->
  PyStr.contains "." b = false ->
  (forall j, i0 <= j < i0 + Z.of_nat n -> is_Some (fs s !! output_name b j)) ->
  fs s !! output_name b (i0 + Z.of_nat n) = None ->
  (n < fuel)%nat ->
  exists tr,
    __init__ fuel comm qmc system hamiltonian trial opts verbose s
    = init_result opts s (i0 + Z.of_nat n) tr
    /\ file_events tr
       = (file_events (trace s) ++ opened (output_name b (i0 + Z.of_nat n)))%list.
Proof.
  intros b i0 Hrank Hfile How Hb Hex Hfree Hfuel.
  apply init_rank0_loop_ok; [assumption | assumption |].
  apply index_loop_nodot; try assumption.
  all: destruct verbose; assumption.
Qed.

Lemma init_rank0_overwrite (fuel : nat) (comm : Comm)
    (qmc system hamiltonian trial : value) (opts : options) (verbose : bool)
    (s : state) :
  let b := default "options" (opt_basename opts) in
  let i0 := default 0 (opt_index opts) in
  rank comm = 0%nat ->
  opt_filename opts = None ->
  truthy (default (VBool true) (opt_overwrite opts)) = true ->
  exists tr,
    __init__ (S fuel) comm qmc system hamiltonian trial opts verbose s
    = init_result opts s i0 tr
    /\ file_events tr = (file_events (trace s) ++ opened (output_name b i0))%list.
Proof.
  intros b i0 Hrank Hfile How.
  apply init_rank0_loop_ok; [assumption | assumption |].
  now apply index_loop_overwrite.
Qed.

(** ** Every way [__init__] can end *)

Lemma output_name_has_part (b : string) (i : Z) :
  is_Some (nth_error (PyStr.split "." (output_name b i)) 1).
Proof.
  rewrite output_name_split.
  pose proof (split_nonempty "." b) as Hne.
  destruct (PyStr.split "." b) as [| p0 [| p1 ps]]; [congruence | |];
    cbn; eauto.
Qed.

Lemma index_loop_shape (fuel : nat) (ow : value) (s : state) (b : string) :
  forall i : Z,
  exists (r : outcome unit) (k : Z),
    index_loop fuel ow (loop_state s b i) = (r, loop_state s b k)
    /\ loop_end r.
Proof.
  induction fuel as [| fuel IH]; intros i.
  - exists OutOfFuel, i. split; [reflexivity | constructor].
  - rewrite index_loop_step.
    destruct (bool_decide (is_Some (fs s !! output_name b i))
              && negb (truthy ow)).
    + destruct (output_name_has_part b i) as [part ->].
      destruct (int_of_str part) as [n |].
      * apply IH.
      * exists (Raise (ValueError part)), i. split; [reflexivity | constructor].
    + exists (Ret tt), i. split; [reflexivity | constructor].
Qed.

Lemma init_rank0_filename (fuel : nat) (comm : Comm)
    (qmc system hamiltonian trial : value) (opts : options) (verbose : bool)
    (s : state) (f : string) :
  rank comm = 0%nat ->
  opt_filename opts = Some f ->
  exists tr,
    __init__ fuel comm qmc system hamiltonian trial opts verbose s
    = named_result opts s f tr
    /\ file_events tr = (file_events (trace s) ++ opened f)%list.
Proof.
  intros Hrank Hfile. unfold __init__, named_result, opened.
  rewrite Hrank, Hfile.
  destruct verbose; run_init Hrank; destruct (creatable f);
    unfold raise, ret; cbn -[build_estimators];
    rewrite ?build_estimators_eq;
    try destruct (default [("energy", VInstance "dict")] (opt_observables opts));
    (eexists; split; [reflexivity |]);
    unfold file_events; cbn; rewrite ?List.filter_app;
    cbn; rewrite ?app_nil_r; reflexivity.
Qed.

Lemma init_rank_nonzero (fuel : nat) (comm : Comm)
    (qmc system hamiltonian trial : value) (opts : options) (verbose : bool)
    (s : state) :
  rank comm <> 0%nat ->
  exists tr,
    __init__ fuel comm qmc system hamiltonian trial opts verbose s
    = (match default [("energy", VInstance "dict")] (opt_observables opts) with
       | [] => Ret tt
       | _ :: _ => Raise (NameError "predefined_estimators")
       end,
       {| fs := fs s;
          trace := tr;
          self := with_estimators [] (with_filename None (self s)) |})
    /\ file_events tr = file_events (trace s).
Proof.
  intros Hrank. unfold __init__.
  destruct (rank comm) as [| n] eqn:E; [congruence |]. cbn [Nat.eqb].
  destruct verbose; run_init E; rewrite build_estimators_eq;
    destruct (default [("energy", VInstance "dict")] (opt_observables opts));
    (eexists; split; [reflexivity |]);
    unfold file_events; cbn; rewrite ?List.filter_app;
    cbn; rewrite ?app_nil_r; reflexivity.
Qed.

Lemma init_result_end (opts : options) (s : state) (k : Z) (tr : list event) :
  init_end opts (fst (init_result opts s k tr))
  /\ (estimators (self (snd (init_result opts s k tr))) = Some []
      \/ estimators (self (snd (init_result opts s k tr))) = estimators (self s)).
Proof.
  unfold init_result. destruct (creatable _); cbn [fst snd self estimators];
    split; first [left; reflexivity | right; reflexivity | constructor].
Qed.

Lemma named_result_end (opts : options) (s : state) (f : string)
    (tr : list event) :
  init_end opts (fst (named_result opts s f tr))
  /\ (estimators (self (snd (named_result opts s f tr))) = Some []
      \/ estimators (self (snd (named_result opts s f tr))) = estimators (self s)).
Proof.
  unfold named_result. destruct (creatable _); cbn [fst snd self estimators];
    split; first [left; reflexivity | right; reflexivity | constructor].
Qed.

Lemma init_ends (fuel : nat) (comm : Comm)
    (qmc system hamiltonian trial : value) (opts : options) (verbose : bool)
    (s : state) :
  exists (r : outcome unit) (s' : state),
    __init__ fuel comm qmc system hamiltonian trial opts verbose s = (r, s')
    /\ init_end opts r
    /\ (estimators (self s') = Some []
        \/ estimators (self s') = estimators (self s)).
Proof.
  destruct (decide (rank comm = 0%nat)) as [Hrank | Hrank].
  - destruct (opt_filename opts) as [f |] eqn:Hfile.
    + destruct (init_rank0_filename fuel comm qmc system hamiltonian trial
                  opts verbose s f Hrank Hfile) as (tr & -> & _).
      eexists _, _. split; [apply surjective_pairing |].
      apply named_result_end.
    + set (s0 := stdout_if verbose "# Setting up estimator object." s).
      destruct (index_loop_shape fuel (default (VBool true) (opt_overwrite opts))
                  s0 (default "options" (opt_basename opts))
                  (default 0 (opt_index opts))) as (r & k & Hloop & Hend).
      destruct Hend.
      * destruct (init_rank0_loop_ok fuel comm qmc system hamiltonian trial
                    opts verbose s k Hrank Hfile Hloop) as (tr & -> & _).
        eexists _, _. split; [apply surjective_pairing |].
        apply init_result_end.
      * rewrite (init_rank0_loop_stops fuel comm qmc system hamiltonian trial
                   opts verbose s _ _ Hrank Hfile Hloop) by discriminate.
        eexists _, _. split; [reflexivity |].
        split; [constructor | right; subst s0; destruct verbose; reflexivity].
      * rewrite (init_rank0_loop_stops fuel comm qmc system hamiltonian trial
                   opts verbose s _ _ Hrank Hfile Hloop) by discriminate.
        eexists _, _. split; [reflexivity |].
        split; [constructor | right; subst s0; destruct verbose; reflexivity].
  - destruct (init_rank_nonzero fuel comm qmc system hamiltonian trial
                opts verbose s Hrank) as (tr & -> & _).
    eexists _, _. split; [reflexivity |]. split; [constructor | left; reflexivity].
Qed.

(** When the loop stops with a false [overwrite], the name it stops at is
    unused, whatever the basename. *)
Lemma index_loop_unused (fuel : nat) (ow : value) (s : state) (b : string) :
  truthy ow = false ->
  forall i k : Z,
    index_loop fuel ow (loop_state s b i) = (Ret tt, loop_state s b k) ->
    fs s !! output_name b k = None.
Proof.
  intros How. induction fuel as [| fuel IH]; intros i k H; [discriminate |].
  rewrite index_loop_step, How in H.
  destruct (bool_decide (is_Some (fs s !! output_name b i))) eqn:E;
    cbn [andb negb] in H.
  - destruct (output_name_has_part b i) as [part Hpart]. rewrite Hpart in H.
    destruct (int_of_str part) as [n |]; [| discriminate].
    exact (IH _ _ H).
  - apply bool_decide_eq_false_1 in E. apply eq_None_not_Some in E.
    injection H as H. rewrite <- H. exact E.
Qed.

Lemma init_result_keeps (opts : options) (s : state) (k : Z) (tr : list event)
    (p : string) :
  p <> output_name (default "options" (opt_basename opts)) k ->
  fs (snd (init_result opts s k tr)) !! p = fs s !! p.
Proof.
  intros Hp. unfold init_result. destruct (creatable _); cbn [snd fs];
    [apply lookup_insert_ne; congruence | reflexivity].
Qed.

(** With a false [overwrite] no file that exists loses its content,
    however construction ends. *)
Lemma init_keeps_files (fuel : nat) (comm : Comm)
    (qmc system hamiltonian trial : value) (opts : options) (verbose : bool)
    (s : state) (p : string) :
  rank comm = 0%nat ->
  opt_filename opts = None ->
  truthy (default (VBool true) (opt_overwrite opts)) = false ->
  is_Some (fs s !! p) ->
  fs (snd (__init__ fuel comm qmc system hamiltonian trial opts verbose s)) !! p
  = fs s !! p.
Proof.
  intros Hrank Hfile How Hp.
  set (s0 := stdout_if verbose "# Setting up estimator object." s).
  assert (fs s0 = fs s) as Hfs by (subst s0; destruct verbose; reflexivity).
  destruct (index_loop_shape fuel (default (VBool true) (opt_overwrite opts)) s0
              (default "options" (opt_basename opts))
              (default 0 (opt_index opts))) as (r & k & Hloop & Hend).
  destruct Hend.
  - destruct (init_rank0_loop_ok fuel comm qmc system hamiltonian trial
                opts verbose s k Hrank Hfile Hloop) as (tr & -> & _).
    apply (index_loop_unused _ _ _ _ How) in Hloop.
    rewrite Hfs in Hloop.
    apply init_result_keeps. intros ->. destruct Hp as [c Hp]. congruence.
  - rewrite (init_rank0_loop_stops fuel comm qmc system hamiltonian trial
               opts verbose s _ _ Hrank Hfile Hloop) by discriminate.
    exact (f_equal (fun m => m !! p) Hfs).
  - rewrite (init_rank0_loop_stops fuel comm qmc system hamiltonian trial
               opts verbose s _ _ Hrank Hfile Hloop) by discriminate.
    exact (f_equal (fun m => m !! p) Hfs).
Qed.

(** ** Claims on the output file name *)


(** C10 (as amended).  The loop reads the current index from the second
    dot-separated component of the file name.  With a false [overwrite] and
    a basename without a dot, if the files [<basename>.<j>.h5] exist for all
    [j] from the start index up to [k - 1] and [<basename>.<k>.h5] does not,
    the loop stops with index [k] and file name [<basename>.<k>.h5].  With
    a dot in the basename the component read belongs to the basename: once
    the first candidate exists, the loop raises [ValueError] when [int]
    rejects that component; when [int] reads it as [n] the index jumps to
    [n + 1], the loop stopping there if [<basename>.<n+1>.h5] is unused and
    running forever otherwise. *)
Theorem index_from_second_component (fuel : nat) (comm : Comm)
    (qmc system hamiltonian trial : value) (opts : options) (verbose : bool)
    (s : state) :
  let b := default "options" (opt_basename opts) in
  let i0 := default 0 (opt_index opts) in
  let s0 := stdout_if verbose "# Setting up estimator object." s in
  rank comm = 0%nat ->
  opt_filename opts = None ->
  truthy (default (VBool true) (opt_overwrite opts)) = false ->
  (PyStr.contains "." b = false ->
   forall k : Z,
     i0 <= k ->
     (forall j, i0 <= j < k -> is_Some (fs s !! output_name b j)) ->
     fs s !! output_name b k = None ->
     (Z.to_nat (k - i0) < fuel)%nat ->
     index_loop fuel (default (VBool true) (opt_overwrite opts))
       (loop_state s0 b i0)
     = (Ret tt, loop_state s0 b k)
     /\ exists tr,
          __init__ fuel comm qmc system hamiltonian trial opts verbose s
          = init_result opts s k tr
          /\ file_events tr
             = (file_events (trace s) ++ opened (output_name b k))%list)
  /\ (forall (p0 p1 : string) (ps : list string),
        PyStr.split "." b = p0 :: p1 :: ps ->
        is_Some (fs s !! output_name b i0) ->
        match int_of_str p1 with
        | None =>
            (1 <= fuel)%nat ->
            __init__ fuel comm qmc system hamiltonian trial opts verbose s
            = (Raise (ValueError p1), loop_state s0 b i0)
        | Some n =>
            (fs s !! output_name b (n + 1) = None ->
             (2 <= fuel)%nat ->
             index_loop fuel (default (VBool true) (opt_overwrite opts))
               (loop_state s0 b i0)
             = (Ret tt, loop_state s0 b (n + 1))
             /\ exists tr,
                  __init__ fuel comm qmc system hamiltonian trial opts verbose s
                  = init_result opts s (n + 1) tr
                  /\ file_events tr
                     = (file_events (trace s)
                        ++ opened (output_name b (n + 1)))%list)
            /\ (is_Some (fs s !! output_name b (n + 1)) ->
                fst (__init__ fuel comm qmc system hamiltonian trial opts verbose s)
                = OutOfFuel)
        end).
Proof.
  intros b i0 s0 Hrank Hfile How.
  assert (forall p, fs s0 !! p = fs s !! p) as Hfs
      by (intros p; subst s0; destruct verbose; reflexivity).
  split.
  - intros Hb k Hk Hex Hfree Hfuel.
    assert (k = i0 + Z.of_nat (Z.to_nat (k - i0))) as Hk' by lia.
    rewrite Hk' in Hfree |- *.
    assert (index_loop fuel (default (VBool true) (opt_overwrite opts))
              (loop_state s0 b i0)
            = (Ret tt, loop_state s0 b (i0 + Z.of_nat (Z.to_nat (k - i0)))))
      as Hloop.
    { apply index_loop_nodot; [assumption | assumption | | | exact Hfuel].
      - intros j Hj. rewrite Hfs. apply Hex. lia.
      - rewrite Hfs. exact Hfree. }
    split; [exact Hloop |].
    now apply init_rank0_loop_ok.
  - intros p0 p1 ps Hb Hex.
    assert (is_Some (fs s0 !! output_name b i0)) as Hex0
        by (rewrite Hfs; exact Hex).
    destruct (int_of_str p1) as [n |] eqn:Hp.
    + split.
      * intros Hfree Hfuel.
        assert (index_loop fuel (default (VBool true) (opt_overwrite opts))
                  (loop_state s0 b i0)
                = (Ret tt, loop_state s0 b (n + 1))) as Hloop.
        { destruct fuel as [| [| fuel]]; try lia.
          rewrite (index_loop_dot_jump _ _ _ _ _ _ _ _ _ How Hb Hp Hex0).
          rewrite index_loop_step, How, Hfs, Hfree.
          rewrite bool_decide_eq_false_2 by (intros [? ?]; discriminate).
          reflexivity. }
        split; [exact Hloop |].
        now apply init_rank0_loop_ok.
      * intros Hex1.
        assert (is_Some (fs s0 !! output_name b (n + 1))) as Hex1'
            by (rewrite Hfs; exact Hex1).
        destruct fuel as [| fuel].
        -- erewrite init_rank0_loop_stops; [reflexivity | assumption ..| |];
             [reflexivity | discriminate].
        -- erewrite init_rank0_loop_stops; [reflexivity | assumption ..| |];
             [| discriminate].
           fold b i0 s0.
           rewrite (index_loop_dot_jump _ _ _ _ _ _ _ _ _ How Hb Hp Hex0).
           apply (index_loop_dot_diverges _ _ _ _ _ _ _ _ How Hb Hp Hex1').
    + intros Hfuel. destruct fuel as [| fuel]; [lia |].
      apply init_rank0_loop_stops; [assumption | assumption | | discriminate].
      fold b i0 s0.
      apply (index_loop_dot_ValueError _ _ _ _ _ _ _ _ How Hb Hp Hex0).
Qed.

(** ** Claims on the observables *)

(** C4 (the code departs from the claim).  Whenever the observables
    mapping holds a name outside the predefined set, [__init__] neither
    returns nor raises the [RuntimeError] naming the observable: the
    registry is read under the unbound name [predefined_estimators], the
    [NameError] this raises is not caught by [except KeyError], and on
    every worker that gets as far as the observables it is what the
    constructor raises. *)
Theorem unknown_observable_not_reported (fuel : nat) (comm : Comm)
    (qmc system hamiltonian trial : value) (opts : options) (verbose : bool)
    (s : state) (items : list (string * value)) (obs : string) (d : value) :
  opt_observables opts = Some items ->
  In (obs, d) items ->
  assoc obs _predefined_estimators = None ->
  let r := fst (__init__ fuel comm qmc system hamiltonian trial opts verbose s) in
  r <> Ret tt
  /\ (forall msg, r <> Raise (RuntimeError msg))
  /\ (rank comm <> 0%nat
      \/ (exists f, opt_filename opts = Some f /\ creatable f = true) ->
      r = Raise (NameError "predefined_estimators")).
Proof.
  intros Hobs Hin _ r. subst r.
  assert (match default [("energy", VInstance "dict")] (opt_observables opts) with
          | [] => Ret tt
          | _ :: _ => Raise (NameError "predefined_estimators")
          end = (Raise (NameError "predefined_estimators") : outcome unit)) as Hres.
  { rewrite Hobs. cbn [default]. destruct items; [destruct Hin | reflexivity]. }
  split; [| split].
  - destruct (init_ends fuel comm qmc system hamiltonian trial opts verbose s)
      as (r & s' & -> & Hend & _).
    cbn [fst]. destruct Hend; [rewrite Hres |..]; discriminate.
  - intros msg.
    destruct (init_ends fuel comm qmc system hamiltonian trial opts verbose s)
      as (r & s' & -> & Hend & _).
    cbn [fst]. destruct Hend; [rewrite Hres |..]; discriminate.
  - intros [Hrank | (f & Hfile & Hf)].
    + destruct (init_rank_nonzero fuel comm qmc system hamiltonian trial
                  opts verbose s Hrank) as (tr & -> & _).
      exact Hres.
    + destruct (decide (rank comm = 0%nat)) as [Hrank | Hrank].
      * destruct (init_rank0_filename fuel comm qmc system hamiltonian trial
                    opts verbose s f Hrank Hfile) as (tr & -> & _).
        unfold named_result. rewrite Hf. exact Hres.
      * destruct (init_rank_nonzero fuel comm qmc system hamiltonian trial
                    opts verbose s Hrank) as (tr & -> & _).
        exact Hres.
Qed.

(** C5 (the code departs from the claim).  With the observables left at
    their default or set to [{"energy": ...}], constructing a handler never
    returns: the first pass of the loop over the observables raises
    [NameError], and the [estimators] dict of the object under construction
    holds no entry. *)
Theorem energy_only_construction_fails (fuel : nat)
    (files : gmap string h5file) (comm : Comm)
    (qmc system hamiltonian trial : value) (opts : options) (verbose : bool) :
  opt_observables opts = None
  \/ (exists d, opt_observables opts = Some [("energy", d)]) ->
  let r := new_handler fuel files comm qmc system hamiltonian trial opts verbose in
  fst r <> Ret tt
  /\ (estimators (self (snd r)) = None \/ estimators (self (snd r)) = Some [])
  /\ (rank comm <> 0%nat
      \/ (exists f, opt_filename opts = Some f /\ creatable f = true) ->
      fst r = Raise (NameError "predefined_estimators")).
Proof.
  intros Hobs r. subst r. unfold new_handler.
  set (s := {| fs := files; trace := []; self := fresh_handler |}).
  assert (match default [("energy", VInstance "dict")] (opt_observables opts) with
          | [] => Ret tt
          | _ :: _ => Raise (NameError "predefined_estimators")
          end = (Raise (NameError "predefined_estimators") : outcome unit)) as Hres.
  { destruct Hobs as [-> | [d ->]]; reflexivity. }
  split; [| split].
  - destruct (init_ends fuel comm qmc system hamiltonian trial opts verbose s)
      as (r & s' & -> & Hend & _).
    cbn [fst]. destruct Hend; [rewrite Hres |..]; discriminate.
  - destruct (init_ends fuel comm qmc system hamiltonian trial opts verbose s)
      as (r & s' & -> & _ & [He | He]); cbn [snd]; [right | left]; exact He.
  - intros [Hrank | (f & Hfile & Hf)].
    + destruct (init_rank_nonzero fuel comm qmc system hamiltonian trial
                  opts verbose s Hrank) as (tr & -> & _).
      exact Hres.
    + destruct (decide (rank comm = 0%nat)) as [Hrank | Hrank].
      * destruct (init_rank0_filename fuel comm qmc system hamiltonian trial
                    opts verbose s f Hrank Hfile) as (tr & -> & _).
        unfold named_result. rewrite Hf. exact Hres.
      * destruct (init_rank_nonzero fuel comm qmc system hamiltonian trial
                    opts verbose s Hrank) as (tr & -> & _).
        exact Hres.
Qed.

(** ** [compute_estimators] and [setup_output] *)

Lemma local_loop_raises (system hamiltonian trial walker_batch : value)
    (k : string) (e : Estimator) (rest : list (string * Estimator)) (s : state) :
  estimators (self s) = Some ((k, e) :: rest) ->
  local_loop system hamiltonian trial walker_batch ((k, e) :: rest) s
  = (Raise (match e_slice e, e_compute_estimators e with
            | None, _ => AttributeError "slice"
            | Some _, None => AttributeError "compute_estimators"
            | Some _, Some _ => NameError "qmc"
            end), s).
Proof.
  intros E. simpl local_loop.
  unfold getattr, dict_get. unfold bind, attr, get_self, ret, raise, lift.
  cbv beta iota. rewrite E. cbn [assoc]. rewrite String.eqb_refl.
  destruct (e_slice e), (e_compute_estimators e); reflexivity.
Qed.

Lemma compute_estimators_raises (comm : Comm)
    (system hamiltonian trial walker_batch : value) (s : state) :
  compute_estimators comm system hamiltonian trial walker_batch s
  = (Raise (compute_error (self s)), s).
Proof.
  unfold compute_estimators, compute_error.
  unfold bind at 1, getattr at 1, bind at 1, get_self at 1, attr at 1.
  destruct (estimators (self s)) as [[| [k e] rest] |] eqn:E;
    [| | reflexivity]; unfold ret at 1.
  - unfold getattr. unfold bind, attr, get_self, ret, raise, lift.
    cbn [local_loop]. unfold ret. cbv beta iota.
    destruct (local_estimates (self s)); cbv beta iota; [| reflexivity].
    destruct (global_estimates (self s)); cbv beta iota; reflexivity.
  - unfold bind at 1. rewrite (local_loop_raises _ _ _ _ _ _ _ _ E).
    reflexivity.
Qed.

Lemma setup_output_nonzero (comm : Comm) (s : state) :
  rank comm <> 0%nat -> setup_output comm s = (Ret tt, s).
Proof.
  intros H. unfold setup_output.
  destruct (rank comm); [congruence | reflexivity].
Qed.

(** C6 (the code departs from the claim).  No call of
    [compute_estimators] performs the sequence: every call raises before
    the reduction and leaves files, effects and buffers as they were.  With
    estimators that have a slice and a [compute_estimators] method it is
    the unbound name [qmc] in the first argument; with no estimators it is
    the buffers, which no method of the class creates, or the unbound name
    [MPI]; and [self.zero], called last, is not a method of the class. *)
Theorem compute_estimators_never_completes (comm : Comm)
    (system hamiltonian trial walker_batch : value) (s : state) :
  (exists e,
      compute_estimators comm system hamiltonian trial walker_batch s
      = (Raise e, s)
      /\ (forall k est rest,
             estimators (self s) = Some ((k, est) :: rest) ->
             is_Some (e_slice est) ->
             is_Some (e_compute_estimators est) ->
             e = NameError "qmc")
      /\ (estimators (self s) = Some [] ->
          e = AttributeError "local_estimates"
          \/ e = AttributeError "global_estimates"
          \/ e = NameError "MPI"))
  /\ method "zero" s = (Raise (AttributeError "zero"), s).
Proof.
  split; [| reflexivity].
  exists (compute_error (self s)). split; [apply compute_estimators_raises |].
  unfold compute_error. split.
  - intros k est rest -> [sl ->] [f ->]. reflexivity.
  - intros ->. destruct (local_estimates (self s)); [| auto].
    destruct (global_estimates (self s)); auto.
Qed.

(** C7.  On a worker whose rank is not 0, construction, [setup_output]
    and [compute_estimators] leave every file as it was and perform no
    effect on an output file; construction ends without any loop pass and
    sets [filename] to [None], and the other two operations leave it
    unchanged. *)
Theorem nonzero_rank_never_touches_files (comm : Comm) :
  rank comm <> 0%nat ->
  (forall fuel qmc system hamiltonian trial opts verbose s,
      let r := __init__ fuel comm qmc system hamiltonian trial opts verbose s in
      fst r <> OutOfFuel
      /\ fs (snd r) = fs s
      /\ file_events (trace (snd r)) = file_events (trace s)
      /\ filename (self (snd r)) = Some None)
  /\ (forall s, setup_output comm s = (Ret tt, s))
  /\ (forall system hamiltonian trial walker_batch s,
         let r := compute_estimators comm system hamiltonian trial walker_batch s in
         fs (snd r) = fs s
         /\ file_events (trace (snd r)) = file_events (trace s)
         /\ filename (self (snd r)) = filename (self s)).
Proof.
  intros Hrank. split; [| split].
  - intros fuel qmc system hamiltonian trial opts verbose s r. subst r.
    destruct (init_rank_nonzero fuel comm qmc system hamiltonian trial
                opts verbose s Hrank) as (tr & -> & Htr).
    cbn [fst snd fs trace self]. repeat split; [| exact Htr].
    destruct (default [("energy", VInstance "dict")] (opt_observables opts));
      discriminate.
  - intros s. now apply setup_output_nonzero.
  - intros system hamiltonian trial walker_batch s r. subst r.
    rewrite compute_estimators_raises. repeat split.
Qed.

(** ** [EstimatorHelper] *)

(** What [push] would do were [self] its first parameter: on the
    dictionary the inner [__init__] fills, the entry, the shape and the
    count are recorded and the offset is not, since [__init__] names the
    attribute [_offset] and [push] reads [_offsets]. *)
Lemma push_with_self_bound (object : value) (name : string) (est : Estimator)
    (shape : list Z) :
  e_shape est = Some shape ->
  push_body [("self", VInstance "EstimatorHelper"); ("name", VStr name);
             ("estimator", VInstance "EstimatorBase")]
    (helper_enclosing object) name est helper_init
  = (Raise (AttributeError "_offsets"),
     [ ("_estimators", HEstimators [(name, est)]); ("_shapes", HList [IShape shape]);
       ("_offset", HOffsets []); ("_num_estim", HInt 1) ]).
Proof.
  intros H. unfold push_body, attr. rewrite H. reflexivity.
Qed.

(** C9 (the code departs from the claim).  No estimator is ever pushed and
    no offset assigned: [EstimatorHelper] is a function, whose call either
    stops at the unbound annotation [EstimatorBase] or returns [None]; and
    the bodies of the inner [push] and [offset], which take no [self]
    parameter, stop at the unbound name [self] before touching any
    bookkeeping. *)
Theorem estimator_helper_assigns_no_offset (object : value) :
  EstimatorHelper true object = Raise (NameError "EstimatorBase")
  /\ EstimatorHelper false object = Ret VNone
  /\ (forall (name : string) (est : Estimator) (h : helper),
         push object name est h = (Raise (NameError "self"), h))
  /\ (forall (name : value) (h : helper),
         offset object name h = (Raise (NameError "self"), h)).
Proof. repeat split. Qed.

(** * Further properties *)

(** ** [increment_file_number] *)

Lemma increment_once (s : state) (i : Z) (b : string) :
  index (self s) = Some i ->
  basename (self s) = Some b ->
  increment_file_number s
  = (Ret tt,
     {| fs := fs s; trace := trace s;
        self := with_filename (Some (output_name b (i + 1)))
                  (with_index (i + 1) (self s)) |}).
Proof.
  destruct s as [files tr [i' f b' est out bs le ge]]. cbn [self index basename].
  intros -> ->. reflexivity.
Qed.

(** X1.  Calling [increment_file_number] [n + 1] times on a handler whose
    index is [i] and whose basename is [b] returns, leaves the index at
    [i + n + 1] and the file name at [<b>.<i+n+1>.h5], and changes nothing
    else: no file is created or looked for, whether or not files of the
    names passed exist. *)
Theorem increment_times_moves_index (n : nat) :
  forall (s : state) (i : Z) (b : string),
    index (self s) = Some i ->
    basename (self s) = Some b ->
    increment_times (S n) s
    = (Ret tt,
       {| fs := fs s; trace := trace s;
          self := with_filename (Some (output_name b (i + Z.of_nat (S n))))
                    (with_index (i + Z.of_nat (S n)) (self s)) |}).
Proof.
  induction n as [| n IH]; intros s i b Hi Hb.
  - cbn [increment_times]. unfold bind.
    rewrite (increment_once s i b Hi Hb). reflexivity.
  - change (increment_times (S (S n)))
      with (bind increment_file_number (fun _ => increment_times (S n))).
    unfold bind at 1. rewrite (increment_once s i b Hi Hb).
    rewrite (IH {| fs := fs s; trace := trace s;
                   self := with_filename (Some (output_name b (i + 1)))
                             (with_index (i + 1) (self s)) |}
                (i + 1) b eq_refl Hb).
    cbn [fs trace self].
    replace (i + 1 + Z.of_nat (S n)) with (i + Z.of_nat (S (S n))) by lia.
    reflexivity.
Qed.

(** X2.  A handler built on a worker of rank other than 0 has no [index]
    and no [basename], and its [filename] is [None]; neither
    [increment_file_number] nor [dump_metadata] checks the rank, so on such
    a handler the first raises [AttributeError] and the second [TypeError],
    each leaving the handler and the files as they were. *)
Theorem methods_on_noncoordinating_handler (fuel : nat)
    (files : gmap string h5file) (comm : Comm)
    (qmc system hamiltonian trial : value) (opts : options) (verbose : bool)
    (json_string : option string) :
  rank comm <> 0%nat ->
  let s' := snd (new_handler fuel files comm qmc system hamiltonian trial
                   opts verbose) in
  increment_file_number s' = (Raise (AttributeError "index"), s')
  /\ dump_metadata json_string s'
     = (Raise (TypeError "expected str, not NoneType"), s').
Proof.
  intros Hrank s'. subst s'. unfold new_handler.
  destruct (init_rank_nonzero fuel comm qmc system hamiltonian trial opts
              verbose {| fs := files; trace := []; self := fresh_handler |}
              Hrank) as (tr & -> & _).
  split; reflexivity.
Qed.

(** ** [__init__] with a configured file name *)

(** X3.  With a [filename] option the coordinating worker uses that name
    as it is: the [overwrite] option is not looked at and no loop pass is
    made; index and basename are recorded all the same.  Where h5py can
    create the file it is created empty, or truncated when it exists, also
    with [overwrite] set to false, and the outcome is that of the loop over
    the observables.  Where it cannot, the constructor raises [OSError]
    before [estimators] is assigned, and no file is created or changed. *)
Theorem configured_filename_is_truncated (fuel : nat) (comm : Comm)
    (qmc system hamiltonian trial : value) (opts : options) (verbose : bool)
    (s : state) (f : string) :
  rank comm = 0%nat ->
  opt_filename opts = Some f ->
  let r := __init__ fuel comm qmc system hamiltonian trial opts verbose s in
  filename (self (snd r)) = Some (Some f)
  /\ index (self (snd r)) = Some (default 0 (opt_index opts))
  /\ basename (self (snd r)) = Some (default "options" (opt_basename opts))
  /\ if creatable f
     then fst r = match default [("energy", VInstance "dict")]
                          (opt_observables opts) with
                  | [] => Ret tt
                  | _ :: _ => Raise (NameError "predefined_estimators")
                  end
          /\ fs (snd r) = <[f := ∅]> (fs s)
          /\ file_events (trace (snd r))
             = (file_events (trace s) ++ [EvOpenW f])%list
     else fst r = Raise (OSError f)
          /\ fs (snd r) = fs s
          /\ file_events (trace (snd r)) = file_events (trace s)
          /\ estimators (self (snd r)) = estimators (self s).
Proof.
  intros Hrank Hfile r. subst r.
  destruct (init_rank0_filename fuel comm qmc system hamiltonian trial opts
              verbose s f Hrank Hfile) as (tr & -> & Htr).
  unfold named_result, opened in *.
  destruct (creatable f); cbn [fst snd fs trace self]; repeat split;
    try exact Htr.
  rewrite Htr. apply app_nil_r.
Qed.

(** X4.  On a handler constructed with a [filename] option,
    [increment_file_number] gives up the configured name: the file name
    becomes [<basename>.<index+1>.h5], with the default basename ["options"]
    and index 0 when none were given, and no file of that name is
    created.  (The file configured is one h5py could create: otherwise
    there is no handler.) *)
Theorem increment_abandons_configured_filename (fuel : nat)
    (files : gmap string h5file) (comm : Comm)
    (qmc system hamiltonian trial : value) (opts : options) (verbose : bool)
    (f : string) :
  rank comm = 0%nat ->
  opt_filename opts = Some f ->
  creatable f = true ->
  opt_observables opts = Some [] ->
  let r := new_handler fuel files comm qmc system hamiltonian trial opts verbose in
  let b := default "options" (opt_basename opts) in
  let i := default 0 (opt_index opts) in
  fst r = Ret tt
  /\ filename (self (snd r)) = Some (Some f)
  /\ exists s'',
       increment_file_number (snd r) = (Ret tt, s'')
       /\ filename (self s'') = Some (Some (output_name b (i + 1)))
       /\ index (self s'') = Some (i + 1)
       /\ fs s'' = <[f := ∅]> files.
Proof.
  intros Hrank Hfile Hf Hobs r b i. subst r b i. unfold new_handler.
  destruct (init_rank0_filename fuel comm qmc system hamiltonian trial opts
              verbose {| fs := files; trace := []; self := fresh_handler |}
              f Hrank Hfile) as (tr & -> & _).
  unfold named_result. rewrite Hf, Hobs. cbn [default fst snd]. repeat split.
  eexists. split; [apply increment_once; reflexivity |].
  repeat split.
Qed.

(** ** When the constructor returns *)

Lemma init_returns_file (fuel : nat) (comm : Comm)
    (qmc system hamiltonian trial : value) (opts : options) (verbose : bool)
    (s : state) :
  let r := __init__ fuel comm qmc system hamiltonian trial opts verbose s in
  rank comm = 0%nat ->
  fst r = Ret tt ->
  exists (p : string) (tr : list event) (h : handler),
    creatable p = true
    /\ filename h = Some (Some p)
    /\ snd r = {| fs := <[p := ∅]> (fs s); trace := tr; self := h |}.
Proof.
  intros r Hrank. subst r.
  destruct (opt_filename opts) as [f |] eqn:Hname.
  - destruct (init_rank0_filename fuel comm qmc system hamiltonian trial
                opts verbose s f Hrank Hname) as (tr & -> & _).
    unfold named_result. destruct (creatable f) eqn:Hf; [| discriminate].
    intros _. eexists f, _, _. split; [exact Hf |].
    split; [| reflexivity]. reflexivity.
  - set (s0 := stdout_if verbose "# Setting up estimator object." s).
    destruct (index_loop_shape fuel (default (VBool true) (opt_overwrite opts))
                s0 (default "options" (opt_basename opts))
                (default 0 (opt_index opts))) as (r & k & Hloop & Hend).
    destruct Hend.
    + destruct (init_rank0_loop_ok fuel comm qmc system hamiltonian trial
                  opts verbose s k Hrank Hname Hloop) as (tr & -> & _).
      unfold init_result.
      destruct (creatable (output_name _ k)) eqn:Hf; [| discriminate].
      intros _. eexists _, _, _. split; [exact Hf |].
      split; [| reflexivity]. reflexivity.
    + rewrite (init_rank0_loop_stops fuel comm qmc system hamiltonian trial
                 opts verbose s _ _ Hrank Hname Hloop) by discriminate.
      discriminate.
    + rewrite (init_rank0_loop_stops fuel comm qmc system hamiltonian trial
                 opts verbose s _ _ Hrank Hname Hloop) by discriminate.
      discriminate.
Qed.

(** X5.  The constructor returns only when the observables are given and
    empty, and on the coordinating worker only with the output file
    created: every other configuration, the default included, ends in an
    exception or in the index loop.  Conversely an empty observables
    mapping makes it return, with an empty [estimators] dict, on every
    worker of rank other than 0, and on rank 0 whenever the file can be
    created under the name configured or, with no name configured and a
    true [overwrite], under the first name. *)
Theorem constructor_returns_iff_no_observables (fuel : nat) (comm : Comm)
    (qmc system hamiltonian trial : value) (opts : options) (verbose : bool)
    (s : state) :
  let r := __init__ fuel comm qmc system hamiltonian trial opts verbose s in
  let b := default "options" (opt_basename opts) in
  let i0 := default 0 (opt_index opts) in
  (fst r = Ret tt ->
   opt_observables opts = Some []
   /\ (rank comm = 0%nat ->
       exists p, filename (self (snd r)) = Some (Some p)
                 /\ creatable p = true
                 /\ fs (snd r) !! p = Some ∅))
  /\ (opt_observables opts = Some [] ->
      rank comm <> 0%nat
      \/ (exists f, opt_filename opts = Some f /\ creatable f = true)
      \/ (opt_filename opts = None
          /\ truthy (default (VBool true) (opt_overwrite opts)) = true
          /\ creatable (output_name b i0) = true
          /\ (1 <= fuel)%nat) ->
      fst r = Ret tt /\ estimators (self (snd r)) = Some []).
Proof.
  intros r b i0. split.
  - intros Hret. split.
    + subst r.
      destruct (init_ends fuel comm qmc system hamiltonian trial opts verbose s)
        as (r & s' & Heq & Hend & _).
      rewrite Heq in Hret. cbn [fst] in Hret. subst r.
      inversion Hend as [Hobs | | |].
      destruct (opt_observables opts) as [[| x l] |]; cbn [default] in Hobs;
        [reflexivity | discriminate | discriminate].
    + intros Hrank.
      destruct (init_returns_file fuel comm qmc system hamiltonian trial opts
                  verbose s Hrank Hret) as (p & tr & h & Hp & Hh & Hs).
      exists p. fold r in Hs. rewrite Hs. cbn [self fs].
      split; [exact Hh |]. split; [exact Hp | apply lookup_insert_eq].
  - subst r. intros Hobs Hcase.
    destruct (decide (rank comm = 0%nat)) as [Hrank | Hrank].
    + destruct Hcase as [Hc | [(f & Hfile & Hf) | (Hfile & How & Hf & Hfuel)]];
        [congruence | |].
      * destruct (init_rank0_filename fuel comm qmc system hamiltonian trial
                    opts verbose s f Hrank Hfile) as (tr & -> & _).
        unfold named_result. rewrite Hf, Hobs. split; reflexivity.
      * destruct fuel as [| fuel]; [lia |].
        destruct (init_rank0_overwrite fuel comm qmc system hamiltonian trial
                    opts verbose s Hrank Hfile How) as (tr & -> & _).
        unfold init_result. fold b i0. rewrite Hf, Hobs. split; reflexivity.
    + destruct (init_rank_nonzero fuel comm qmc system hamiltonian trial
                  opts verbose s Hrank) as (tr & -> & _).
      rewrite Hobs. split; reflexivity.
Qed.

(** ** [setup_output] and the sequence of calls *)

(** X6.  [setup_output] never creates an output helper and never assigns
    [self.output], on any worker: it returns with nothing changed when the
    rank is not 0 or the [estimators] dict is empty, and otherwise raises
    [AttributeError] while evaluating the arguments of
    [H5EstimatorHelper(...)], at the latest at [total_size], which a dict
    does not have. *)
Theorem setup_output_creates_no_helper (comm : Comm) (s : state) :
  exists r : outcome unit,
    setup_output comm s = (r, s)
    /\ (r = Ret tt <-> rank comm <> 0%nat \/ estimators (self s) = Some [])
    /\ (forall e, r = Raise e ->
          e = AttributeError "estimators" \/ e = AttributeError "filename"
          \/ e = AttributeError "buffer_size" \/ e = AttributeError "total_size")
    /\ r <> OutOfFuel.
Proof.
  unfold setup_output.
  destruct (rank comm) as [| n] eqn:Hrank; cbn [Nat.eqb].
  - destruct s as [files tr [i f b est out bs le ge]].
    unfold getattr. unfold bind, get_self, attr, ret, raise.
    cbn [self estimators].
    destruct est as [[| [k e] rest] |].
    + eexists. split; [reflexivity |]. repeat split; auto; discriminate.
    + cbn [setup_output_loop]. unfold getattr, global.
      unfold bind, get_self, attr, ret, raise, lift.
      cbn [self filename buffer_size estimators].
      destruct f as [f |]; [destruct bs as [bs |] |];
        (eexists; split; [reflexivity |]);
        (split; [split; [discriminate | intros [H | H]; congruence] |]);
        (split; [intros e0 [= <-]; auto | discriminate]).
    + eexists. split; [reflexivity |].
      split; [split; [discriminate | intros [H | H]; [congruence | discriminate]] |].
      split; [intros e0 [= <-]; auto | discriminate].
  - exists (Ret tt). split; [reflexivity |]. repeat split; auto; discriminate.
Qed.

Lemma setup_output_empty (comm : Comm) (s : state) :
  estimators (self s) = Some [] -> setup_output comm s = (Ret tt, s).
Proof.
  intros H. unfold setup_output. destruct (rank comm =? 0)%nat; [| reflexivity].
  unfold getattr. unfold bind, get_self, attr. rewrite H. reflexivity.
Qed.

Lemma init_returns_shape (fuel : nat) (comm : Comm)
    (qmc system hamiltonian trial : value) (opts : options) (verbose : bool)
    (s : state) :
  let r := __init__ fuel comm qmc system hamiltonian trial opts verbose s in
  fst r = Ret tt ->
  estimators (self (snd r)) = Some []
  /\ output (self (snd r)) = output (self s)
  /\ buffer_size (self (snd r)) = buffer_size (self s)
  /\ local_estimates (self (snd r)) = local_estimates (self s)
  /\ global_estimates (self (snd r)) = global_estimates (self s).
Proof.
  intros r. subst r.
  destruct (decide (rank comm = 0%nat)) as [Hrank | Hrank].
  - destruct (opt_filename opts) as [f |] eqn:Hfile.
    + destruct (init_rank0_filename fuel comm qmc system hamiltonian trial
                  opts verbose s f Hrank Hfile) as (tr & -> & _).
      unfold named_result. destruct (creatable f); [| discriminate].
      intros _. repeat split.
    + set (s0 := stdout_if verbose "# Setting up estimator object." s).
      destruct (index_loop_shape fuel (default (VBool true) (opt_overwrite opts))
                  s0 (default "options" (opt_basename opts))
                  (default 0 (opt_index opts))) as (r & k & Hloop & Hend).
      destruct Hend.
      * destruct (init_rank0_loop_ok fuel comm qmc system hamiltonian trial
                    opts verbose s k Hrank Hfile Hloop) as (tr & -> & _).
        unfold init_result. destruct (creatable _); [| discriminate].
        intros _. repeat split.
      * rewrite (init_rank0_loop_stops fuel comm qmc system hamiltonian trial
                   opts verbose s _ _ Hrank Hfile Hloop) by discriminate.
        discriminate.
      * rewrite (init_rank0_loop_stops fuel comm qmc system hamiltonian trial
                   opts verbose s _ _ Hrank Hfile Hloop) by discriminate.
        discriminate.
  - destruct (init_rank_nonzero fuel comm qmc system hamiltonian trial
                opts verbose s Hrank) as (tr & -> & _).
    intros _. repeat split.
Qed.

(** X7.  On every handler the constructor returns, on any worker, the
    calls that follow go the same way: [setup_output] returns without
    creating [self.output], and [compute_estimators] then raises
    [AttributeError] for [local_estimates], the buffer no method of the
    class creates, with nothing changed. *)
Theorem calls_after_construction (fuel : nat) (files : gmap string h5file)
    (comm : Comm) (qmc system hamiltonian trial walker_batch : value)
    (opts : options) (verbose : bool) :
  let r := new_handler fuel files comm qmc system hamiltonian trial opts verbose in
  fst r = Ret tt ->
  setup_output comm (snd r) = (Ret tt, snd r)
  /\ output (self (snd r)) = None
  /\ compute_estimators comm system hamiltonian trial walker_batch (snd r)
     = (Raise (AttributeError "local_estimates"), snd r).
Proof.
  intros r Hret. subst r. unfold new_handler in *.
  destruct (init_returns_shape fuel comm qmc system hamiltonian trial opts
              verbose {| fs := files; trace := []; self := fresh_handler |}
              Hret) as (Hest & Hout & _ & Hle & _).
  cbn [self output local_estimates fresh_handler] in Hout, Hle.
  split; [| split; [exact Hout |]].
  - exact (setup_output_empty comm _ Hest).
  - rewrite compute_estimators_raises. unfold compute_error.
    rewrite Hest, Hle. reflexivity.
Qed.

(** ** File names and the index loop *)

(** X8.  For a basename without a dot the index is read back from the
    file name: the second dot-separated component of [<b>.<i>.h5] is the
    decimal form of [i] and [int] of it is [i], negative indices included.
    With a dot in the basename that component is the second component of the
    basename whatever the index is.  For every basename, distinct indices
    give distinct file names. *)
Theorem index_read_back_from_name (b : string) (i : Z) :
  (PyStr.contains "." b = false ->
   nth_error (PyStr.split "." (output_name b i)) 1 = Some (PyStr.str i)
   /\ PyStr.int (PyStr.str i) = Some i)
  /\ (forall p0 p1 ps,
         PyStr.split "." b = p0 :: p1 :: ps ->
         nth_error (PyStr.split "." (output_name b i)) 1 = Some p1)
  /\ (forall j, output_name b i = output_name b j -> i = j).
Proof.
  split; [| split].
  - intros Hb. split; [now apply output_name_part_nodot | apply int_str].
  - intros p0 p1 ps Hb. now apply (output_name_part_dot b p0 p1 ps).
  - intros j. apply output_name_inj.
Qed.

Lemma first_free_index_bounded_aux (b : string) (files : gmap string h5file)
    (m : nat) :
  forall (X : gset string) (i : Z),
    (size X <= m)%nat ->
    (forall j, i <= j -> is_Some (files !! output_name b j) ->
               output_name b j ∈ X) ->
    exists n : nat,
      (n <= m)%nat
      /\ (forall j, i <= j < i + Z.of_nat n -> is_Some (files !! output_name b j))
      /\ files !! output_name b (i + Z.of_nat n) = None.
Proof.
  induction m as [| m IH]; intros X i Hsize Hin.
  - exists 0%nat. split; [lia |]. split; [intros j Hj; lia |].
    replace (i + Z.of_nat 0) with i by lia.
    destruct (files !! output_name b i) eqn:E; [| reflexivity].
    assert (output_name b i ∈ X) as Hx by (apply Hin; [lia | eauto]).
    assert (size X = 0%nat) as Hz by lia.
    apply size_empty_inv in Hz. set_solver.
  - destruct (files !! output_name b i) eqn:E.
    + assert (output_name b i ∈ X) as Hx by (apply Hin; [lia | eauto]).
      destruct (IH (X ∖ {[output_name b i]}) (i + 1)) as (n & Hle & Hn & Hfree).
      * assert (size (X ∖ {[output_name b i]}) = (size X - 1)%nat) as ->.
        { rewrite size_difference by set_solver.
          rewrite size_singleton. reflexivity. }
        assert (size X <> 0%nat).
        { intros Hz. apply size_empty_inv in Hz. set_solver. }
        lia.
      * intros j Hj Hsome. apply elem_of_difference. split.
        -- apply Hin; [lia | assumption].
        -- rewrite elem_of_singleton. intros Heq.
           apply output_name_inj in Heq. lia.
      * exists (S n). split; [lia |]. split.
        -- intros j Hj. destruct (decide (j = i)) as [-> | Hne];
             [eauto | apply Hn; lia].
        -- replace (i + Z.of_nat (S n)) with (i + 1 + Z.of_nat n) by lia.
           exact Hfree.
    + exists 0%nat. split; [lia |]. split; [intros j Hj; lia |].
      replace (i + Z.of_nat 0) with i by lia. exact E.
Qed.

(** X9.  With a false [overwrite] and a basename without a dot, the index
    loop of the coordinating worker makes at most one pass per file of the
    working directory: a step bound above the number of files is never
    reached, and the index chosen exceeds the start index by at most that
    number. *)
Theorem index_loop_bounded_by_directory (fuel : nat) (comm : Comm)
    (qmc system hamiltonian trial : value) (opts : options) (verbose : bool)
    (s : state) :
  let b := default "options" (opt_basename opts) in
  let i0 := default 0 (opt_index opts) in
  rank comm = 0%nat ->
  opt_filename opts = None ->
  truthy (default (VBool true) (opt_overwrite opts)) = false ->
  PyStr.contains "." b = false ->
  (size (fs s) < fuel)%nat ->
  exists (k : Z) (tr : list event),
    i0 <= k <= i0 + Z.of_nat (size (fs s))
    /\ fs s !! output_name b k = None
    /\ __init__ fuel comm qmc system hamiltonian trial opts verbose s
       = init_result opts s k tr.
Proof.
  intros b i0 Hrank Hfile How Hb Hfuel.
  destruct (first_free_index_bounded_aux b (fs s) (size (dom (fs s)))
              (dom (fs s)) i0) as (n & Hle & Hex & Hfree).
  { lia. }
  { intros j _ H. now apply elem_of_dom. }
  rewrite size_dom in Hle.
  destruct (init_rank0_nodot fuel comm qmc system hamiltonian trial opts
              verbose s n Hrank Hfile How Hb Hex Hfree) as (tr & Heq & _);
    [lia |].
  exists (i0 + Z.of_nat n), tr. repeat split; [lia | lia | exact Hfree | exact Heq].
Qed.

(** ** [dump_metadata] *)

Lemma dump_metadata_opens (json_string : option string) (s : state) (p : string) :
  filename (self s) = Some (Some p) ->
  is_Some (fs s !! p) \/ creatable p = true ->
  dump_metadata json_string s
  = bind (attr "json_string" json_string)
         (fun data => h5_setitem p "metadata" data)
         {| fs := match fs s !! p with
                  | Some _ => fs s
                  | None => <[p := ∅]> (fs s)
                  end;
            trace := trace s; self := self s |}.
Proof.
  intros Hf Hopen. unfold dump_metadata, getattr, open_a, global.
  unfold bind at 1 2 3, get_self, attr at 1. rewrite Hf.
  unfold ret at 1, as_path, ret at 1, bind at 1 2, lift.
  cbn [resolve]. destruct s as [files tr h]. cbn [fs trace self] in *.
  destruct (files !! p) as [c |]; [reflexivity |].
  destruct Hopen as [[c Hc] | ->]; [discriminate | reflexivity].
Qed.

Lemma dump_metadata_no_file (json_string : option string) (s : state)
    (p : string) :
  filename (self s) = Some (Some p) ->
  fs s !! p = None ->
  creatable p = false ->
  dump_metadata json_string s = (Raise (OSError p), s).
Proof.
  intros Hf Hmiss Hc. unfold dump_metadata, getattr, open_a, global.
  unfold bind at 1 2 3, get_self, attr at 1. rewrite Hf.
  unfold ret at 1, as_path, ret at 1, bind at 1 2, lift.
  cbn [resolve]. rewrite Hmiss, Hc. reflexivity.
Qed.

(** X10.  As the class stands, with no [json_string] attribute,
    [dump_metadata] on a handler that has a file name raises
    [AttributeError], but only after opening the file in append mode: a
    missing file has been created empty by then, and no existing file has
    lost anything.  Where the file is missing and cannot be created, the
    call raises [OSError] instead, whatever [json_string] is, and nothing
    changes. *)
Theorem dump_metadata_without_json_string (s : state) (p : string) :
  filename (self s) = Some (Some p) ->
  (is_Some (fs s !! p) \/ creatable p = true ->
   exists s',
     dump_metadata None s = (Raise (AttributeError "json_string"), s')
     /\ is_Some (fs s' !! p)
     /\ (forall q c, fs s !! q = Some c -> fs s' !! q = Some c)
     /\ self s' = self s)
  /\ (fs s !! p = None -> creatable p = false ->
      forall json_string,
        dump_metadata json_string s = (Raise (OSError p), s)).
Proof.
  intros Hf. split.
  - intros Hopen. rewrite (dump_metadata_opens None s p Hf Hopen).
    eexists. split; [reflexivity |]. cbn [fs self].
    destruct (fs s !! p) as [c |] eqn:E.
    + repeat split; [rewrite E; eauto | auto].
    + repeat split; [rewrite lookup_insert_eq; eauto |].
      intros q c Hq. rewrite lookup_insert_ne; [exact Hq | congruence].
  - intros Hmiss Hc json_string. now apply dump_metadata_no_file.
Qed.

(** X11.  With [json_string] set and no ["metadata"] dataset in the file,
    [dump_metadata] returns and the file holds its earlier datasets plus
    ["metadata"] with that string, a missing file (created where it can be)
    counting as empty; the other files and the handler are unchanged.  A
    second call, whatever the string, raises the "name already exists"
    error of h5py and changes nothing. *)
Theorem dump_metadata_stores_once (s : state) (p data : string) :
  filename (self s) = Some (Some p) ->
  is_Some (fs s !! p) \/ creatable p = true ->
  default ∅ (fs s !! p) !! "metadata" = None ->
  exists s',
    dump_metadata (Some data) s = (Ret tt, s')
    /\ fs s' !! p = Some (<["metadata" := data]> (default ∅ (fs s !! p)))
    /\ (forall q, q <> p -> fs s' !! q = fs s !! q)
    /\ self s' = self s
    /\ forall data', dump_metadata (Some data') s' = (Raise link_exists, s').
Proof.
  intros Hf Hopen Hnew. rewrite (dump_metadata_opens (Some data) s p Hf Hopen).
  unfold attr, bind, ret, h5_setitem. cbn [fs trace self].
  destruct (fs s !! p) as [c |] eqn:E; cbn [default from_option id] in Hnew.
  - rewrite E. cbn [default from_option id]. rewrite Hnew.
    eexists. split; [reflexivity |]. cbn [fs self].
    split; [apply lookup_insert_eq |].
    split; [intros q Hq; apply lookup_insert_ne; congruence |].
    split; [reflexivity |].
    intros data'.
    rewrite dump_metadata_opens with (p := p);
      [| exact Hf | left; cbn [fs]; rewrite lookup_insert_eq; eauto].
    unfold attr, bind, ret, h5_setitem. cbn [fs trace self].
    unfold h5file in *.
    repeat first [rewrite lookup_insert_eq | progress cbn [default from_option id]].
    reflexivity.
  - rewrite lookup_insert_eq. cbn [default from_option id]. rewrite Hnew.
    eexists. split; [reflexivity |]. cbn [fs self].
    split; [apply lookup_insert_eq |].
    split; [intros q Hq; rewrite !lookup_insert_ne by congruence; reflexivity |].
    split; [reflexivity |].
    intros data'.
    rewrite dump_metadata_opens with (p := p);
      [| exact Hf | left; cbn [fs]; rewrite lookup_insert_eq; eauto].
    unfold attr, bind, ret, h5_setitem. cbn [fs trace self].
    unfold h5file in *.
    repeat first [rewrite lookup_insert_eq | progress cbn [default from_option id]].
    reflexivity.
Qed.

(** ** The output file after construction *)

(** X12.  Whenever the constructor returns on the coordinating worker,
    [self.filename] names a file that exists and is empty, and every other
    file is as before.  [dump_metadata] with [json_string] set then returns
    and leaves exactly the ["metadata"] dataset in that file. *)
Theorem metadata_after_construction (fuel : nat) (comm : Comm)
    (qmc system hamiltonian trial : value) (opts : options) (verbose : bool)
    (s : state) :
  let r := __init__ fuel comm qmc system hamiltonian trial opts verbose s in
  rank comm = 0%nat ->
  fst r = Ret tt ->
  exists p,
    filename (self (snd r)) = Some (Some p)
    /\ fs (snd r) !! p = Some ∅
    /\ (forall q, q <> p -> fs (snd r) !! q = fs s !! q)
    /\ forall data, exists s',
         dump_metadata (Some data) (snd r) = (Ret tt, s')
         /\ fs s' !! p = Some {[ "metadata" := data ]}.
Proof.
  intros r Hrank. subst r.
  assert (forall (tr : list event) (h : handler) (p : string),
             filename h = Some (Some p) ->
             let s' := {| fs := <[p := ∅]> (fs s); trace := tr; self := h |} in
             filename (self s') = Some (Some p)
             /\ fs s' !! p = Some ∅
             /\ (forall q, q <> p -> fs s' !! q = fs s !! q)
             /\ forall data, exists s'',
                  dump_metadata (Some data) s' = (Ret tt, s'')
                  /\ fs s'' !! p = Some {[ "metadata" := data ]}) as Hfile.
  { intros tr h p Hp s'. subst s'. cbn [fs self].
    split; [exact Hp |]. split; [apply lookup_insert_eq |].
    split; [intros q Hq; apply lookup_insert_ne; congruence |].
    intros data.
    rewrite dump_metadata_opens with (p := p);
      [| exact Hp | left; cbn [fs]; rewrite lookup_insert_eq; eauto].
    unfold attr, bind, ret, h5_setitem. cbn [fs trace self].
    unfold h5file in *.
    repeat first [rewrite lookup_insert_eq | progress cbn [default from_option id]].
    rewrite lookup_empty. eexists. split; [reflexivity |].
    cbn [fs]. rewrite lookup_insert_eq. reflexivity. }
  intros Hret.
  destruct (init_returns_file fuel comm qmc system hamiltonian trial opts
              verbose s Hrank Hret) as (p & tr & h & _ & Hh & ->).
  exists p. apply Hfile. exact Hh.
Qed.

(** ** What the constructor prints *)

Lemma stdout_lines_app (a b : list event) :
  stdout_lines (a ++ b) = (stdout_lines a ++ stdout_lines b)%list.
Proof. apply flat_map_app. Qed.

Ltac finish_lines :=
  cbn -[output_name stdout_lines constructor_lines];
  rewrite ?stdout_lines_app; cbn -[output_name];
  rewrite ?app_nil_r, <- ?app_assoc; reflexivity.

(** X13.  Without [verbose] the constructor prints nothing, however it
    ends.  With [verbose] it prints the opening line first; on the
    coordinating worker the line naming the output file follows as soon as
    the file has been opened, hence also when the loop over the observables
    then raises; and the closing line is printed exactly when the
    constructor returns. *)
Theorem constructor_prints (fuel : nat) (comm : Comm)
    (qmc system hamiltonian trial : value) (opts : options) (verbose : bool)
    (s : state) :
  let r := __init__ fuel comm qmc system hamiltonian trial opts verbose s in
  stdout_lines (trace (snd r))
  = (stdout_lines (trace s)
     ++ if verbose
        then constructor_lines comm (fst r) (filename (self (snd r)))
        else [])%list.
Proof.
  intros r. subst r. destruct comm as [[| n]].
  - destruct (opt_filename opts) as [f |] eqn:Hfile.
    + unfold __init__. cbn [rank Nat.eqb]. rewrite Hfile.
      destruct verbose; run_init Hfile; destruct (creatable f);
        unfold raise, ret; cbn -[build_estimators];
        rewrite ?build_estimators_eq;
        try destruct (default [("energy", VInstance "dict")] (opt_observables opts));
        finish_lines.
    + destruct (index_loop_shape fuel (default (VBool true) (opt_overwrite opts))
                  (stdout_if verbose "# Setting up estimator object." s)
                  (default "options" (opt_basename opts))
                  (default 0 (opt_index opts))) as (r & k & Hloop & Hend).
      unfold __init__. cbn [rank Nat.eqb]. rewrite Hfile.
      unfold stdout_if, loop_state in Hloop.
      destruct verbose; run_init Hloop; rewrite Hloop;
        destruct Hend; cbn -[index_loop output_name build_estimators];
        try destruct (creatable (output_name _ k));
        unfold raise, ret; cbn -[index_loop output_name build_estimators];
        rewrite ?build_estimators_eq;
        try destruct (default [("energy", VInstance "dict")] (opt_observables opts));
        finish_lines.
  - unfold __init__. cbn [rank Nat.eqb].
    destruct verbose; run_init fuel; rewrite build_estimators_eq;
      destruct (default [("energy", VInstance "dict")] (opt_observables opts));
      finish_lines.
Qed.

End Handler.

Arguments VNone {Obj}.
Arguments VInstance {Obj} cls.
Arguments no_options {Obj}.
Arguments no_observables {Obj}.
Arguments foo_observable {Obj}.
Arguments keep_files {Obj} b.
Arguments overwrite_none {Obj} b.
Arguments based {Obj} b.
Arguments named_output {Obj} f.
Arguments start {Obj num} files.
Arguments init_result {Obj num} creatable opts s k tr.
Arguments opened {Obj num} creatable path.
Arguments loop_state {Obj num} s b i.
Arguments fs {Obj num} s.
Arguments trace {Obj num} s.
Arguments self {Obj num} s.
Arguments index {Obj num} h.
Arguments filename {Obj num} h.
Arguments estimators {Obj num} h.
Arguments EvOpenW {Obj num} path.

(** ** The closing assertions of the test *)

Module TestMultiDetBatchFacts.
Import TestMultiDetBatch.

Lemma mean_is_Some (l : list Q) : is_Some (mean l) <-> l <> [].
Proof.
  destruct l; cbn; split; intros H; try congruence; eauto.
  destruct H as [x H]. discriminate.
Qed.

Lemma removelast_nonempty (l : list Q) :
  removelast l <> [] <-> (2 <= length l)%nat.
Proof.
  destruct l as [| x [| y l]]; cbn; split; intros H; try congruence; try lia.
Qed.

Lemma mean_matches_rows (a b : list Q) :
  mean_matches a b = true -> (2 <= length a)%nat /\ (2 <= length b)%nat.
Proof.
  unfold mean_matches. intros H.
  split; apply removelast_nonempty; apply mean_is_Some.
  - destruct (mean (removelast a)); [eauto | discriminate].
  - destruct (mean (removelast a)); [| discriminate].
    destruct (mean (removelast b)); [eauto | discriminate].
Qed.

(** X14.  The closing assertions read each table only through its rows
    before the last: two pairs of tables that agree on those rows get the
    same verdict.  And they can pass only when every column of both tables
    has at least two rows, the mean of no rows being [nan]. *)
Theorem closing_assertions_rows (data_batch data : mixed_estimates) :
  (forall data_batch' data' : mixed_estimates,
      map (@removelast Q) (columns data_batch')
      = map (@removelast Q) (columns data_batch) ->
      map (@removelast Q) (columns data') = map (@removelast Q) (columns data) ->
      output_assertions data_batch' data' = output_assertions data_batch data)
  /\ (output_assertions data_batch data = true ->
      Forall (fun c => (2 <= length c)%nat) (columns data_batch ++ columns data)).
Proof.
  split.
  - intros data_batch' data' Hb Hd. unfold columns in Hb, Hd. cbn [map] in Hb, Hd.
    injection Hb as Hb1 Hb2 Hb3 Hb4 Hb5 Hb6 Hb7 Hb8 Hb9.
    injection Hd as Hd1 Hd2 Hd3 Hd4 Hd5 Hd6 Hd7 Hd8 Hd9.
    unfold output_assertions, mean_matches.
    rewrite Hb1, Hb2, Hb3, Hb4, Hb5, Hb6, Hb7, Hb8, Hb9.
    rewrite Hd1, Hd2, Hd3, Hd4, Hd5, Hd6, Hd7, Hd8, Hd9. reflexivity.
  - unfold output_assertions. intros H.
    repeat (apply andb_prop in H; destruct H as [H ?]).
    repeat match goal with
           | H : mean_matches _ _ = true |- _ =>
               apply mean_matches_rows in H; destruct H
           end.
    unfold columns. cbn [app]. repeat constructor; assumption.
Qed.

Lemma approx_refl (x : Q) : approx x x = true.
Proof.
  unfold approx. apply Qle_bool_iff.
  assert (Qabs (x - x) == 0)%Q as ->.
  { unfold Qminus. rewrite Qplus_opp_r. reflexivity. }
  unfold approx_tolerance.
  apply Qle_trans with (1 # 1000000000000)%Q; [discriminate |].
  apply Q.le_max_r.
Qed.

Lemma mean_matches_refl (a : list Q) :
  mean_matches a a = true <-> (2 <= length a)%nat.
Proof.
  split; [intros H; now apply mean_matches_rows in H |].
  intros H. apply removelast_nonempty, mean_is_Some in H as [x Hx].
  unfold mean_matches. rewrite Hx. apply approx_refl.
Qed.

Lemma closing_assertions_self_rows (data : mixed_estimates) :
  output_assertions data data = true ->
  Forall (fun c => (2 <= length c)%nat) (columns data).
Proof.
  unfold output_assertions. intros H.
  repeat (apply andb_prop in H; destruct H as [H ?]).
  repeat match goal with
         | H : mean_matches _ _ = true |- _ =>
             apply mean_matches_rows in H; destruct H as [H _]
         end.
  unfold columns. repeat constructor; assumption.
Qed.

(** X15.  A table compared with itself passes the closing assertions
    exactly when each of its columns has at least two rows. *)
Theorem closing_assertions_reflexive (data : mixed_estimates) :
  output_assertions data data = true
  <-> Forall (fun c => (2 <= length c)%nat) (columns data).
Proof.
  split.
  - intros H. apply closing_assertions_self_rows. exact H.
  - unfold columns. intros H.
    repeat match goal with
           | H : Forall _ (_ :: _) |- _ =>
               apply Forall_cons_iff in H; destruct H as [? H]
           end.
    unfold output_assertions.
    repeat (apply andb_true_intro; split); now apply mean_matches_refl.
Qed.

End TestMultiDetBatchFacts.

(** * Closed instances *)

(** The environment of the instances: files can be created in the working
    directory itself, under any name but the empty one; objects the model
    does not look into are true; and, every string below being ASCII, the
    reader of other strings is never consulted. *)
Local Abbreviation flat_directory :=
  (fun path : string =>
     negb (String.eqb path "") && negb (PyStr.contains "/" path)).
Local Abbreviation opaque_true := (fun _ : value unit => true).
Local Abbreviation ascii_only := (fun _ : string => @None Z).

Local Abbreviation no_classes :=
  (fun _ _ _ _ _ _ _ => Raise (TypeError "estimator classes are outside the module")).
Local Abbreviation one_worker := (fun sendbuf : list Z => sendbuf).

Module TestMultiDetBatchInstances.
Import TestMultiDetBatch TestMultiDetBatchFacts.

(** Changing the last block of either table does not change the verdict. *)
Lemma closing_assertions_rows_witness :
  output_assertions (sample_table 3) (sample_table 7)
  = output_assertions (sample_table 0) (sample_table 0)
  /\ Forall (fun c => (2 <= length c)%nat)
       (columns (sample_table 0) ++ columns (sample_table 0)).
Proof.
  destruct (closing_assertions_rows (sample_table 0) (sample_table 0))
    as [Hsame Hrows].
  split.
  - apply (Hsame (sample_table 3) (sample_table 7)); reflexivity.
  - apply Hrows. reflexivity.
Defined.

(** A table of three blocks agrees with itself. *)
Lemma closing_assertions_reflexive_witness :
  output_assertions (sample_table 0) (sample_table 0) = true.
Proof.
  apply (proj2 (closing_assertions_reflexive (sample_table 0))).
  unfold columns, sample_table. repeat constructor.
Defined.

End TestMultiDetBatchInstances.

(** ** Observables *)

(** An unknown observable, on a worker of rank 1. *)
Lemma unknown_observable_witness :
  fst (__init__ unit Z flat_directory opaque_true ascii_only
      no_classes 0 rank1 VNone VNone VNone VNone
         foo_observable false (start ∅))
  = Raise (NameError "predefined_estimators").
Proof.
  apply (unknown_observable_not_reported
      unit Z flat_directory opaque_true ascii_only
      no_classes 0 rank1
           VNone VNone VNone VNone foo_observable false (start ∅)
           [("foo", VInstance "dict")] "foo" (VInstance "dict")).
  - reflexivity.
  - left. reflexivity.
  - reflexivity.
  - left. discriminate.
Defined.

(** The same on the coordinating worker, which has created its output file
    by then. *)
Example unknown_observable_rank0 :
  let r := new_handler unit Z flat_directory opaque_true ascii_only
      no_classes 1 ∅ rank0 VNone VNone VNone VNone
             foo_observable false in
  fst r = Raise (NameError "predefined_estimators")
  /\ file_events unit Z (trace (snd r)) = [EvOpenW "options.0.h5"].
Proof. vm_compute. split; reflexivity. Qed.

(** The default options, on a worker of rank 1. *)
Lemma energy_only_witness :
  fst (new_handler unit Z flat_directory opaque_true ascii_only
      no_classes 0 ∅ rank1 VNone VNone VNone VNone
         no_options false)
  = Raise (NameError "predefined_estimators").
Proof.
  apply (energy_only_construction_fails
      unit Z flat_directory opaque_true ascii_only
      no_classes 0 ∅ rank1
           VNone VNone VNone VNone no_options false).
  - left. reflexivity.
  - left. discriminate.
Defined.

(** ** [compute_estimators] *)

(** A handler with every attribute set and one energy estimator, on the
    coordinating worker: the call stops at [qmc]. *)
Lemma compute_estimators_witness :
  let s := {| fs := earlier_run; trace := []; self := ready_handler unit Z |} in
  compute_estimators unit Z one_worker rank0 VNone VNone VNone VNone s
  = (Raise (NameError "qmc"), s).
Proof.
  intros s.
  destruct (compute_estimators_never_completes unit Z one_worker rank0
              VNone VNone VNone VNone s) as [(e & Heq & Hqmc & _) _].
  rewrite Heq. f_equal. f_equal.
  apply (Hqmc "energy" (full_estimator unit Z) []); [reflexivity | |];
    eexists; reflexivity.
Defined.

(** A handler as the constructor leaves it (the only way it returns is
    with no observables): the call stops at the local buffer, which no
    method creates. *)
Example compute_estimators_after_construction :
  let r := new_handler unit Z flat_directory opaque_true ascii_only
      no_classes 1 ∅ rank0 VNone VNone VNone VNone
             no_observables false in
  fst r = Ret tt
  /\ compute_estimators unit Z one_worker rank0 VNone VNone VNone VNone (snd r)
     = (Raise (AttributeError "local_estimates"), snd r).
Proof. split; [reflexivity | apply compute_estimators_raises]. Qed.

Lemma nonzero_rank_witness :
  rank rank1 <> 0%nat
  /\ (forall s : state unit Z, setup_output unit Z rank1 s = (Ret tt, s))
  /\ filename (self (snd (__init__ unit Z flat_directory opaque_true ascii_only
      no_classes 0 rank1 VNone VNone VNone
                            VNone no_options false (start earlier_run))))
     = Some None.
Proof.
  assert (rank rank1 <> 0%nat) as H by discriminate.
  split; [exact H |].
  destruct (nonzero_rank_never_touches_files
      unit Z flat_directory opaque_true ascii_only
      no_classes one_worker
              rank1 H) as (Hinit & Hsetup & _).
  split; [exact Hsetup |].
  apply (Hinit 0%nat VNone VNone VNone VNone no_options false
           (start earlier_run)).
Defined.

(** ** Output file names *)



(** The basename [a.5] with [a.5.0.h5] present: the loop reads [5] from
    the basename and stops at the unused name [a.5.6.h5]. *)
Lemma dotted_basename_finds_unused_name :
  let r := new_handler unit Z flat_directory opaque_true ascii_only
      no_classes 2 dotted_run rank0
             VNone VNone VNone VNone (keep_files "a.5") false in
  PyStr.contains "." "a.5" = true
  /\ fst r = Ret tt
  /\ index (self (snd r)) = Some 6
  /\ filename (self (snd r)) = Some (Some "a.5.6.h5")
  /\ dotted_run !! "a.5.6.h5" = None.
Proof. vm_compute. repeat split. Qed.

Lemma index_from_second_component_witness :
  (exists tr,
      __init__ unit Z flat_directory opaque_true ascii_only no_classes 3 rank0
        VNone VNone VNone VNone (keep_files "run") false (start two_runs)
      = init_result flat_directory (keep_files "run") (start two_runs) 2 tr)
  /\ __init__ unit Z flat_directory opaque_true ascii_only no_classes 1 rank0
       VNone VNone VNone VNone (keep_files "my.run") false (start named_run)
     = (Raise (ValueError "run"), loop_state (start named_run) "my.run" 0).
Proof.
  split.
  - pose proof (index_from_second_component unit Z flat_directory opaque_true
                  ascii_only no_classes 3 rank0 VNone VNone VNone VNone
                  (keep_files "run") false (start two_runs)
                  eq_refl eq_refl eq_refl) as H.
    cbv zeta in H. destruct H as [Hplain _].
    destruct (Hplain eq_refl 2) as (_ & tr & Heq & _).
    + cbn. lia.
    + cbn. intros j Hj. assert (j = 0 \/ j = 1) as [-> | ->] by lia;
        eexists; reflexivity.
    + reflexivity.
    + cbn. lia.
    + exists tr. exact Heq.
  - pose proof (index_from_second_component unit Z flat_directory opaque_true
                  ascii_only no_classes 1 rank0 VNone VNone VNone VNone
                  (keep_files "my.run") false (start named_run)
                  eq_refl eq_refl eq_refl) as H.
    cbv zeta in H. destruct H as [_ Hdot].
    apply (Hdot "my" "run" [] eq_refl).
    + eexists. reflexivity.
    + apply le_n.
Defined.

(** ** Further instances *)

Local Abbreviation link_error :=
  (RuntimeError "Unable to create link (name already exists)").

(** Three increments on a handler at index 0, in a directory where
    [options.1.h5] to [options.3.h5] do not exist. *)
Lemma increment_times_moves_index_witness :
  let s := {| fs := earlier_run; trace := []; self := ready_handler unit Z |} in
  increment_times unit Z 3 s
  = (Ret tt,
     {| fs := earlier_run; trace := [];
        self := with_filename unit Z (Some "options.3.h5")
                  (with_index unit Z 3 (ready_handler unit Z)) |}).
Proof.
  intros s.
  exact (increment_times_moves_index unit Z 2 s 0 "options" eq_refl eq_refl).
Defined.

(** A handler built on the worker of rank 1. *)
Lemma methods_on_noncoordinating_handler_witness :
  let s' := snd (new_handler unit Z flat_directory opaque_true ascii_only
      no_classes 0 earlier_run rank1
                   VNone VNone VNone VNone no_observables false) in
  rank rank1 <> 0%nat
  /\ increment_file_number unit Z s' = (Raise (AttributeError "index"), s')
  /\ dump_metadata unit Z flat_directory link_error (Some "{}") s'
     = (Raise (TypeError "expected str, not NoneType"), s').
Proof.
  intros s'.
  assert (rank rank1 <> 0%nat) as H by discriminate.
  split; [exact H |].
  exact (methods_on_noncoordinating_handler
      unit Z flat_directory opaque_true ascii_only
      no_classes link_error 0
           earlier_run rank1 VNone VNone VNone VNone no_observables false
           (Some "{}") H).
Defined.

Ltac take_branch H :=
  match type of H with
  | if _ then ?A else ?B => first [change A in H | change B in H]
  end.

(** The name of an earlier output file given as [filename], with
    [overwrite] false: the file is truncated.  A name in a directory that
    does not exist: [OSError], and the files are as before. *)
Lemma configured_filename_is_truncated_witness :
  let r := __init__ unit Z flat_directory opaque_true ascii_only no_classes 0
             rank0 VNone VNone VNone VNone
             (named_output "options.0.h5") false (start earlier_run) in
  let r' := __init__ unit Z flat_directory opaque_true ascii_only no_classes 0
              rank0 VNone VNone VNone VNone
              (named_output "nodir/out.h5") false (start earlier_run) in
  earlier_run !! "options.0.h5" = Some {[ "metadata" := "{}" ]}
  /\ fst r = Ret tt
  /\ fs (snd r) = <["options.0.h5" := ∅]> earlier_run
  /\ fst r' = Raise (OSError "nodir/out.h5")
  /\ fs (snd r') = earlier_run.
Proof.
  intros r r'.
  pose proof (configured_filename_is_truncated unit Z flat_directory
                opaque_true ascii_only no_classes 0 rank0
                VNone VNone VNone VNone (named_output "options.0.h5") false
                (start earlier_run) "options.0.h5" eq_refl eq_refl) as H.
  pose proof (configured_filename_is_truncated unit Z flat_directory
                opaque_true ascii_only no_classes 0 rank0
                VNone VNone VNone VNone (named_output "nodir/out.h5") false
                (start earlier_run) "nodir/out.h5" eq_refl eq_refl) as H'.
  cbv zeta in H, H'.
  destruct H as (_ & _ & _ & H). destruct H' as (_ & _ & _ & H').
  take_branch H. take_branch H'.
  destruct H as (Hr & Hfs & _). destruct H' as (Hr' & Hfs' & _).
  split; [reflexivity |].
  split; [exact Hr |]. split; [exact Hfs |]. split; [exact Hr' | exact Hfs'].
Defined.

(** After construction with the file name [out.h5], one increment moves
    the handler to [options.1.h5]. *)
Lemma increment_abandons_configured_filename_witness :
  let r := new_handler unit Z flat_directory opaque_true ascii_only
      no_classes 0 ∅ rank0 VNone VNone VNone VNone
             (named_output "out.h5") false in
  filename (self (snd r)) = Some (Some "out.h5")
  /\ exists s'',
       increment_file_number unit Z (snd r) = (Ret tt, s'')
       /\ filename (self s'') = Some (Some "options.1.h5")
       /\ fs s'' !! "options.1.h5" = None.
Proof.
  intros r.
  pose proof (increment_abandons_configured_filename
      unit Z flat_directory opaque_true ascii_only
      no_classes 0 ∅
                rank0 VNone VNone VNone VNone (named_output "out.h5") false
                "out.h5" eq_refl eq_refl eq_refl eq_refl) as H.
  cbv zeta in H. destruct H as (_ & Hname & s'' & Hinc & Hf & _ & Hfs).
  split; [exact Hname |].
  exists s''. split; [exact Hinc |]. split; [exact Hf |].
  rewrite Hfs. reflexivity.
Defined.

(** The default options do not let the constructor return; an empty
    observables mapping does, unless the output file cannot be created. *)
Lemma constructor_returns_iff_no_observables_witness :
  fst (__init__ unit Z flat_directory opaque_true ascii_only no_classes 1
         rank0 VNone VNone VNone VNone no_options false (start ∅)) <> Ret tt
  /\ fst (__init__ unit Z flat_directory opaque_true ascii_only no_classes 1
            rank0 VNone VNone VNone VNone no_observables false (start ∅))
     = Ret tt
  /\ fst (__init__ unit Z flat_directory opaque_true ascii_only no_classes 1
            rank0 VNone VNone VNone VNone (based "nodir/run") false (start ∅))
     <> Ret tt.
Proof.
  split; [| split].
  - intros H.
    pose proof (constructor_returns_iff_no_observables unit Z flat_directory
                  opaque_true ascii_only no_classes 1 rank0
                  VNone VNone VNone VNone no_options false (start ∅)) as Hiff.
    cbv zeta in Hiff. destruct Hiff as [Honly _].
    destruct (Honly H) as [Hobs _]. discriminate Hobs.
  - pose proof (constructor_returns_iff_no_observables unit Z flat_directory
                  opaque_true ascii_only no_classes 1 rank0
                  VNone VNone VNone VNone no_observables false (start ∅))
      as Hiff.
    cbv zeta in Hiff. destruct Hiff as [_ Hif].
    apply Hif; [reflexivity |].
    right. right. repeat split. apply le_n.
  - intros H.
    pose proof (constructor_returns_iff_no_observables unit Z flat_directory
                  opaque_true ascii_only no_classes 1 rank0
                  VNone VNone VNone VNone (based "nodir/run") false (start ∅))
      as Hiff.
    cbv zeta in Hiff. destruct Hiff as [Honly _].
    destruct (Honly H) as [_ Hfile].
    destruct (Hfile eq_refl) as (p & Hp & Hc & _).
    vm_compute in Hp. injection Hp as <-. vm_compute in Hc. discriminate Hc.
Defined.

(** A handler constructed with no observables in a directory that holds an
    earlier output file. *)
Lemma calls_after_construction_witness :
  let r := new_handler unit Z flat_directory opaque_true ascii_only
      no_classes 1 earlier_run rank0
             VNone VNone VNone VNone no_observables true in
  fst r = Ret tt
  /\ setup_output unit Z rank0 (snd r) = (Ret tt, snd r)
  /\ output unit Z (self (snd r)) = None
  /\ compute_estimators unit Z one_worker rank0 VNone VNone VNone VNone (snd r)
     = (Raise (AttributeError "local_estimates"), snd r).
Proof.
  intros r. split; [reflexivity |].
  exact (calls_after_construction unit Z flat_directory opaque_true ascii_only
      no_classes one_worker 1 earlier_run
           rank0 VNone VNone VNone VNone VNone no_observables true eq_refl).
Defined.

(** The index is read back from [run.12.h5] and from [run.-3.h5]; with the
    basename [a.5] the component read is [5]. *)
Lemma index_read_back_from_name_witness :
  nth_error (PyStr.split "." (output_name "run" 12)) 1 = Some "12"
  /\ PyStr.int (PyStr.str (-3)) = Some (-3)
  /\ nth_error (PyStr.split "." (output_name "a.5" 12)) 1 = Some "5".
Proof.
  destruct (index_read_back_from_name "run" 12) as [Hplain _].
  destruct (index_read_back_from_name "run" (-3)) as [Hneg _].
  destruct (index_read_back_from_name "a.5" 12) as (_ & Hdot & _).
  split; [exact (proj1 (Hplain eq_refl)) |].
  split; [exact (proj2 (Hneg eq_refl)) |].
  exact (Hdot "a" "5" [] eq_refl).
Defined.

(** Two files in the directory, three steps allowed. *)
Lemma index_loop_bounded_by_directory_witness :
  exists (k : Z) (tr : list (event unit Z)),
    0 <= k <= 0 + Z.of_nat (size two_runs)
    /\ two_runs !! output_name "run" k = None
    /\ __init__ unit Z flat_directory opaque_true ascii_only
        no_classes 3 rank0 VNone VNone VNone VNone
         (keep_files "run") false (start two_runs)
       = init_result flat_directory (keep_files "run") (start two_runs) k tr.
Proof.
  apply (index_loop_bounded_by_directory
      unit Z flat_directory opaque_true ascii_only
      no_classes 3 rank0
           VNone VNone VNone VNone (keep_files "run") false (start two_runs));
    try reflexivity.
  vm_compute. apply le_n.
Defined.

(** A handler whose file does not exist yet: the failed call leaves an
    empty file behind.  A handler whose file lies in a missing directory:
    [OSError], and no file. *)
Lemma dump_metadata_without_json_string_witness :
  let s := {| fs := two_runs; trace := []; self := ready_handler unit Z |} in
  let s1 := {| fs := two_runs; trace := [];
               self := with_filename unit Z (Some "nodir/run.0.h5")
                         (ready_handler unit Z) |} in
  two_runs !! "options.0.h5" = None
  /\ (exists s',
         dump_metadata unit Z flat_directory link_error None s
         = (Raise (AttributeError "json_string"), s')
         /\ is_Some (fs s' !! "options.0.h5"))
  /\ dump_metadata unit Z flat_directory link_error (Some "{}") s1
     = (Raise (OSError "nodir/run.0.h5"), s1).
Proof.
  intros s s1. split; [reflexivity |]. split.
  - destruct (dump_metadata_without_json_string unit Z flat_directory
                link_error s "options.0.h5" eq_refl) as [Hopen _].
    destruct (Hopen (or_intror eq_refl)) as (s' & Heq & Hsome & _).
    exists s'. split; [exact Heq | exact Hsome].
  - destruct (dump_metadata_without_json_string unit Z flat_directory
                link_error s1 "nodir/run.0.h5" eq_refl) as [_ Hfail].
    exact (Hfail eq_refl eq_refl (Some "{}")).
Defined.

(** The first call stores the string, the second raises. *)
Lemma dump_metadata_stores_once_witness :
  let s := {| fs := two_runs; trace := []; self := ready_handler unit Z |} in
  exists s',
    dump_metadata unit Z flat_directory link_error (Some "{}") s = (Ret tt, s')
    /\ dump_metadata unit Z flat_directory link_error (Some "{}") s'
       = (Raise link_error, s').
Proof.
  intros s.
  destruct (dump_metadata_stores_once unit Z flat_directory link_error s
              "options.0.h5" "{}" eq_refl (or_intror eq_refl) eq_refl)
    as (s' & Heq & _ & _ & _ & Hagain).
  exists s'. split; [exact Heq | exact (Hagain "{}")].
Defined.

(** Construction with no observables over an earlier output file, then
    the metadata. *)
Lemma metadata_after_construction_witness :
  let r := __init__ unit Z flat_directory opaque_true ascii_only
      no_classes 1 rank0 VNone VNone VNone VNone
             no_observables false (start earlier_run) in
  exists p,
    filename (self (snd r)) = Some (Some p)
    /\ fs (snd r) !! p = Some ∅
    /\ exists s',
         dump_metadata unit Z flat_directory link_error (Some "{}") (snd r) = (Ret tt, s')
         /\ fs s' !! p = Some {[ "metadata" := "{}" ]}.
Proof.
  intros r.
  pose proof (metadata_after_construction
      unit Z flat_directory opaque_true ascii_only
      no_classes link_error 1 rank0
                VNone VNone VNone VNone no_observables false
                (start earlier_run)) as H.
  cbv zeta in H. destruct (H eq_refl eq_refl) as (p & Hname & Hempty & _ & Hdump).
  exists p. split; [exact Hname |]. split; [exact Hempty |].
  exact (Hdump "{}").
Defined.

